(** * watchf: the watch session of [watch.c]

    A shallow embedding of [src/main/watch.c]: the inotify batch decoder
    ([report_event], [watch_handler]), the set-up and tear-down of the two
    descriptors ([initialize_signals], [initialise_watcher],
    [shutdown_watcher]), the unused helper [execute_command] and the
    debounce loop of [watch_for_changes]; and of [src/main/main.c]: the
    reports and the option loop of [main].

    The operating system is modelled as the answers it gives: one record of
    start-up answers and one record per loop iteration.  Every function
    returns its result together with the file-scope handles it leaves behind
    and the calls and output it made, in program order. *)

From Stdlib Require Import ZArith List String Ascii Bool Lia.
From Stdlib Require Import Strings.Byte DecimalString.
Import ListNotations.
Open Scope Z_scope.

(** ** C integers *)

Module CInt.

(** [int] is 32 bits wide; a value that leaves the range wraps around in
    two's complement. *)
Definition INT_MAX : Z := 2 ^ 31 - 1.
Definition INT_MIN : Z := - 2 ^ 31.

Definition to_int (z : Z) : Z := (z + 2 ^ 31) mod 2 ^ 32 - 2 ^ 31.
Definition to_uint (z : Z) : Z := z mod 2 ^ 32.

Definition in_int (z : Z) : Prop := INT_MIN <= z <= INT_MAX.

(** [x++] on an [int]. *)
Definition incr (z : Z) : Z := to_int (z + 1).

End CInt.

(** ** Constants of the system headers

    [watch.c] takes them from <sys/inotify.h>, <poll.h>, <signal.h>,
    <stdlib.h> and <sys/wait.h>; the values are those of Linux and glibc. *)

Definition IN_ACCESS        : Z := 0x00000001.
Definition IN_MODIFY        : Z := 0x00000002.
Definition IN_ATTRIB        : Z := 0x00000004.
Definition IN_CLOSE_WRITE   : Z := 0x00000008.
Definition IN_CLOSE_NOWRITE : Z := 0x00000010.
Definition IN_OPEN          : Z := 0x00000020.
Definition IN_MOVED_FROM    : Z := 0x00000040.
Definition IN_MOVED_TO      : Z := 0x00000080.
Definition IN_CREATE        : Z := 0x00000100.
Definition IN_DELETE        : Z := 0x00000200.
Definition IN_DELETE_SELF   : Z := 0x00000400.
Definition IN_MOVE_SELF     : Z := 0x00000800.
Definition IN_EXCL_UNLINK   : Z := 0x04000000.
Definition IN_ISDIR         : Z := 0x40000000.

Definition POLLIN  : Z := 0x0001.
Definition SIGINT  : Z := 2.
Definition SIGTERM : Z := 15.

Definition EXIT_SUCCESS : Z := 0.
Definition EXIT_FAILURE : Z := 1.

(** [sizeof(struct inotify_event)]: four 32-bit fields before the name. *)
Definition sizeof_inotify_event : Z := 16.
(** [sizeof(struct signalfd_siginfo)]. *)
Definition sizeof_signalfd_siginfo : Z := 128.

(** [#define EVENT_BUF_LEN (sizeof(struct inotify_event) * 16)] *)
Definition EVENT_BUF_LEN : Z := sizeof_inotify_event * 16.

(** [enum poll_fd_e] *)
Definition FD_POLL_SIGNAL  : Z := 0.
Definition FD_POLL_INOTIFY : Z := 1.
Definition FD_POLL_MAX     : Z := 2.

(** glibc's [WIFEXITED(status)] is [((status) & 0x7f) == 0], and
    [WEXITSTATUS(status)] is [((status) & 0xff00) >> 8]. *)
Definition WTERMSIG (status : Z) : Z := Z.land status 0x7f.
Definition WIFEXITED (status : Z) : Z := if WTERMSIG status =? 0 then 1 else 0.
Definition WEXITSTATUS (status : Z) : Z := Z.shiftr (Z.land status 0xff00) 8.

(** ** Bytes of the event buffer *)

Definition Z_of_byte (b : byte) : Z := Z.of_N (Byte.to_N b).

Definition byte_of_Z (z : Z) : byte :=
  match Byte.of_N (Z.to_N (z mod 256)) with
  | Some b => b
  | None => x00
  end.

(** [buf[i]]; the model reads a zero outside the array. *)
Definition byte_at (buf : list byte) (i : Z) : Z :=
  Z_of_byte (nth (Z.to_nat i) buf x00).

(** A 32-bit field at offset [off], least significant byte first. *)
Definition le32 (buf : list byte) (off : Z) : Z :=
  byte_at buf off
  + 2 ^ 8 * byte_at buf (off + 1)
  + 2 ^ 16 * byte_at buf (off + 2)
  + 2 ^ 24 * byte_at buf (off + 3).

(** The characters of a C string: the bytes before the first NUL. *)
Fixpoint c_string (l : list byte) : list byte :=
  match l with
  | [] => []
  | b :: l' => if Byte.eqb b x00 then [] else b :: c_string l'
  end.

(** The fields of the [struct inotify_event] that starts at offset [ev] of
    the buffer. *)
Definition ev_wd (buf : list byte) (ev : Z) : Z := CInt.to_int (le32 buf ev).
Definition ev_mask (buf : list byte) (ev : Z) : Z := le32 buf (ev + 4).
Definition ev_cookie (buf : list byte) (ev : Z) : Z := le32 buf (ev + 8).
Definition ev_len (buf : list byte) (ev : Z) : Z := le32 buf (ev + 12).
Definition ev_name (buf : list byte) (ev : Z) : list byte :=
  c_string (skipn (Z.to_nat (ev + sizeof_inotify_event)) buf).

(** ** printf conversions *)

Section Printing.
Local Open Scope string_scope.

Definition nl : string := String (ascii_of_nat 10) EmptyString.

(** [%d] *)
Definition fmt_d (z : Z) : string :=
  NilZero.string_of_int (Z.to_int (CInt.to_int z)).

Definition hex_digit (d : Z) : ascii :=
  nth (Z.to_nat d) (list_ascii_of_string "0123456789abcdef") "0"%char.

Fixpoint hex_fixed (n : nat) (z : Z) : string :=
  match n with
  | O => EmptyString
  | S k => hex_fixed k (z / 16)%Z ++ String (hex_digit (z mod 16)%Z) EmptyString
  end.

(** [%08x]: an [unsigned] has at most eight hexadecimal digits. *)
Definition fmt_08x (z : Z) : string := hex_fixed 8 (CInt.to_uint z).

Fixpoint strip_zeros (s : string) : string :=
  match s with
  | String c (String _ _ as s') =>
      if Ascii.eqb c "0"%char then strip_zeros s' else s
  | _ => s
  end.

(** [%x] *)
Definition fmt_x (z : Z) : string := strip_zeros (fmt_08x z).

(** [if (mask & bit) printf(text)] *)
Definition when_set (mask bit : Z) (text : string) : string :=
  if (Z.land mask bit =? 0)%Z then EmptyString else text.

(** ** report_event *)

(** What [report_event(event)] writes to standard output, [event] pointing
    at offset [ev] of the buffer. *)
Definition report_event (buf : list byte) (ev : Z) : string :=
  let mask := ev_mask buf ev in
  let cookie := ev_cookie buf ev in
  ("wd=" ++ fmt_d (ev_wd buf ev) ++ " mask=" ++ fmt_08x mask
   ++ " cookie=" ++ fmt_08x cookie ++ " len=" ++ fmt_d (ev_len buf ev)
   ++ " dir=" ++ (if (Z.land mask IN_ISDIR =? 0)%Z then "no" else "yes"))
  ++ (if (ev_len buf ev =? 0)%Z then EmptyString
      else " name=" ++ string_of_list_byte (ev_name buf ev))
  ++ " "
  ++ when_set mask IN_ACCESS "IN_ACCESS,"
  ++ when_set mask IN_ATTRIB "IN_ATTRIB,"
  ++ when_set mask IN_OPEN "IN_OPEN,"
  ++ when_set mask IN_CLOSE_WRITE "IN_CLOSE_WRITE,"
  ++ when_set mask IN_CLOSE_NOWRITE "IN_CLOSE_NOWRITE,"
  ++ when_set mask IN_CREATE "IN_CREATE,"
  ++ when_set mask IN_DELETE "IN_DELETE,"
  ++ when_set mask IN_DELETE_SELF "IN_DELETE_SELF,"
  ++ when_set mask IN_MODIFY "IN_MODIFY,"
  ++ when_set mask IN_MOVE_SELF "IN_MOVE_SELF,"
  ++ when_set mask IN_MOVED_FROM
       ("IN_MOVED_FROM (cookie: " ++ fmt_d cookie ++ "),")
  ++ when_set mask IN_MOVED_TO
       ("IN_MOVED_TO (cookie: " ++ fmt_d cookie ++ ")")
  ++ nl.

End Printing.

(** Several [printf] arguments in a row. *)
Definition text (parts : list string) : string :=
  String.concat EmptyString parts.

(** ** Calls and output *)

(** What the program does that can be seen from outside, in program order:
    the text it writes and the system calls it makes. *)
Inductive action : Type :=
| Stdout (s : string)
| Stderr (s : string)
| Sys_sigprocmask
| Sys_signalfd
| Sys_inotify_init
| Sys_inotify_add_watch (inf : Z) (target : string) (mask : Z)
| Sys_inotify_rm_watch (inf wd : Z)
| Sys_close (fd : Z)
| Sys_poll (fds : list Z) (nfds timeout : Z)
| Sys_read (fd count : Z)
| Sys_system (command : string)
| Sys_getcwd (size : Z).

(** The two file-scope variables of [watch.c]. *)
Record handles : Type := Handles {
  s_watch_instance : Z;
  s_inotify_instance : Z
}.

(** [static int s_watch_instance = -1; static int s_inotify_instance = -1;] *)
Definition initial_handles : handles := Handles (-1) (-1).

(** A computation reads and writes the handles and appends to the record of
    actions. *)
Definition M (A : Type) : Type := handles -> A * handles * list action.

Definition pure {A} (a : A) : M A := fun h => (a, h, []).

Definition bind {A B} (m : M A) (k : A -> M B) : M B :=
  fun h =>
    let '(a, h1, t1) := m h in
    let '(b, h2, t2) := k a h1 in
    (b, h2, t1 ++ t2).

Definition emit (a : action) : M unit := fun h => (tt, h, [a]).
Definition get : M handles := fun h => (h, h, []).
Definition put (h : handles) : M unit := fun _ => (tt, h, []).

Declare Scope monad_scope.
Delimit Scope monad_scope with monad.
Notation "x <- m ;; k" := (bind m (fun x => k))
  (at level 61, m at next level, right associativity) : monad_scope.
Notation "m ;; k" := (bind m (fun _ => k))
  (at level 61, right associativity) : monad_scope.
Open Scope monad_scope.

(** [if (verbose) { ... }] *)
Definition when (b : bool) (m : M unit) : M unit := if b then m else pure tt.

Definition result {A} (r : A * handles * list action) : A := fst (fst r).
Definition handles_of {A} (r : A * handles * list action) : handles :=
  snd (fst r).
Definition actions {A} (r : A * handles * list action) : list action := snd r.

(** ** The answers of the operating system *)

(** What [read(inf, buf, len)] leaves behind: its return value and the
    contents of [buf] after the call. *)
Record read_result : Type := Read_result {
  rd_len : Z;
  rd_buf : list byte
}.

(** The calls made before the loop. *)
Record startup : Type := Startup {
  sigprocmask_ret : Z;
  signalfd_ret : Z;
  inotify_init_ret : Z;
  inotify_add_watch_ret : Z;
  startup_strerror : string          (* strerror(errno) after a failure *)
}.

(** The calls made in one pass through the loop; a pass makes each of them at
    most once. *)
Record iteration : Type := Iteration {
  poll_ret : Z;
  sig_revents : Z;                   (* poll_handles[FD_POLL_SIGNAL].revents *)
  ino_revents : Z;                   (* poll_handles[FD_POLL_INOTIFY].revents *)
  poll_strerror : string;
  sig_read_ret : Z;
  ssi_signo : Z;
  ino_read : read_result;
  system_ret : Z
}.

(** ** watch_handler *)

(** The [while (i < len)] loop.  Every pass adds at least
    [sizeof(struct inotify_event)] to [i], so [len] passes are enough;
    [watch_handler_loop_fuel] below shows that more fuel changes nothing.
    [next] stays far below the range of [ssize_t]. *)
Fixpoint watch_handler_loop (fuel : nat) (buf : list byte) (len : Z)
    (verbose : bool) (i events : Z) : Z * list action :=
  match fuel with
  | O => (events, [])
  | S fuel' =>
      if i <? len then
        let event := i in
        let next := i + (sizeof_inotify_event + ev_len buf event) in
        if Z.land (ev_mask buf event) IN_MODIFY =? 0 then
          watch_handler_loop fuel' buf len verbose next events
        else
          let '(n, out) :=
            watch_handler_loop fuel' buf len verbose next (CInt.incr events) in
          (n, (if verbose then [Stdout (report_event buf event)] else [])
              ++ out)
      else (events, [])
  end.

Definition watch_handler (r : read_result) (inf : Z) (verbose : bool) : M Z :=
  emit (Sys_read inf EVENT_BUF_LEN);;
  fun h =>
    let '(events, out) :=
      watch_handler_loop (Z.to_nat (rd_len r)) (rd_buf r) (rd_len r)
        verbose 0 0 in
    (events, h, out).

(** ** initialise_watcher, shutdown_watcher, initialize_signals *)

Definition initialise_watcher (w : startup) (target : string)
    (verbose : bool) : M Z :=
  emit Sys_inotify_init;;
  let inf := inotify_init_ret w in
  (if inf =? -1 then
     emit (Stderr (text ["Failed to initalise iNotify: ";
                         startup_strerror w; nl]%string))
   else
     emit (Sys_inotify_add_watch inf target (Z.lor IN_MODIFY IN_EXCL_UNLINK));;
     let wd := inotify_add_watch_ret w in
     if wd =? -1 then
       emit (Stderr (text ["Failed to create a watch on target: ";
                           startup_strerror w; nl]%string))
     else
       when verbose
         (emit (Stdout (text ["Begun monitoring of '"; target; "' - ";
                              fmt_d wd; nl]%string)));;
       put (Handles wd inf));;
  pure inf.

Definition shutdown_watcher : M unit :=
  h <- get;;
  if negb (s_inotify_instance h =? -1) then
    (if negb (s_watch_instance h =? -1) then
       emit (Sys_inotify_rm_watch (s_inotify_instance h) (s_watch_instance h));;
       put (Handles (-1) (s_inotify_instance h))
     else pure tt);;
    emit (Sys_close (s_inotify_instance h));;
    h' <- get;;
    put (Handles (s_watch_instance h') (-1))
  else pure tt.

Definition initialize_signals (w : startup) : M Z :=
  emit Sys_sigprocmask;;
  if sigprocmask_ret w <? 0 then
    emit (Stderr (text ["Couldn't block signals: '"; startup_strerror w;
                        "'"; nl]%string));;
    pure (-1)
  else
    emit Sys_signalfd;;
    if signalfd_ret w <? 0 then
      emit (Stderr (text ["Couldn't setup signal FD: '"; startup_strerror w;
                          "'"; nl]%string));;
      pure (-1)
    else pure (signalfd_ret w).

(** ** execute_command *)

(** [rc] is what [system(command)] returns. *)
Definition execute_command (rc : Z) (command : string) (verbose : bool)
    : M Z :=
  when verbose
    (emit (Stdout (text ["Notify event - executing '"; command; "'";
                         nl]%string)));;
  emit (Sys_system command);;
  pure (if WIFEXITED rc =? 0 then 0 else -1).

(** ** watch_for_changes *)

(** The two local variables that outlive a pass through the loop. *)
Record locals : Type := Locals {
  ret : Z;
  watch_events : Z
}.

(** How a pass through the [for (;;)] ends. *)
Inductive control : Type := Continue | Break.

(** [if (poll_handles[FD_POLL_SIGNAL].revents & POLLIN) { ... }] *)
Definition check_signal (verbose : bool) (signal_fd : Z) (w : iteration)
    (l : locals) : M (control * locals) :=
  if negb (Z.land (sig_revents w) POLLIN =? 0) then
    emit (Sys_read signal_fd sizeof_signalfd_siginfo);;
    if negb (sig_read_ret w =? sizeof_signalfd_siginfo) then
      emit (Stderr (text ["Couldn't read signal, wrong size read";
                          nl]%string));;
      pure (Break, Locals EXIT_FAILURE (watch_events l))
    else if (ssi_signo w =? SIGINT) || (ssi_signo w =? SIGTERM) then
      when verbose
        (emit (Stdout (text ["Received shutdown signal!"; nl]%string)));;
      pure (Break, l)
    else
      when verbose
        (emit (Stderr (text ["Received unexpected signal"; nl]%string)));;
      pure (Continue, l)
  else pure (Continue, l).

(** [if (poll_handles[FD_POLL_INOTIFY].revents & POLLIN) { ... }] *)
Definition check_inotify (verbose : bool) (inotify_fd : Z) (w : iteration)
    (l : locals) : M (control * locals) :=
  if negb (Z.land (ino_revents w) POLLIN =? 0) then
    n <- watch_handler (ino_read w) inotify_fd verbose;;
    if n >? 0 then
      pure (Continue, Locals (ret l) (CInt.incr (watch_events l)))
    else pure (Continue, l)
  else pure (Continue, l).

(** [if (npoll == 0) { ... }]: the wait timed out. *)
Definition on_timeout (command : string) (verbose : bool) (w : iteration)
    (l : locals) : M (control * locals) :=
  if watch_events l >? 0 then
    let l := Locals (ret l) 0 in
    when verbose
      (emit (Stdout (text ["Notify event - executing '"; command; "'";
                           nl]%string)));;
    emit (Sys_system command);;
    let rc := system_ret w in
    when verbose
      (emit (Stdout (text ["return code "; fmt_x rc; nl]%string)));;
    if negb (rc =? 0) then
      if negb (WIFEXITED rc =? 0) then pure (Break, l) else pure (Continue, l)
    else pure (Continue, l)
  else pure (Continue, l).

(** One pass through the body of the [for (;;)]. *)
Definition loop_body (command : string) (verbose : bool)
    (signal_fd inotify_fd : Z) (w : iteration) (l : locals)
    : M (control * locals) :=
  let timeout := if negb (watch_events l =? 0) then 100 else 1000 in
  emit (Sys_poll [signal_fd; inotify_fd] FD_POLL_MAX timeout);;
  let npoll := poll_ret w in
  if npoll =? 0 then on_timeout command verbose w l
  else if npoll <? 0 then
    emit (Stderr (text ["Couldn't poll: '"; poll_strerror w; "'"; nl]%string));;
    pure (Break, Locals EXIT_FAILURE (watch_events l))
  else if npoll >? 0 then
    r <- check_signal verbose signal_fd w l;;
    match r with
    | (Break, l') => pure (Break, l')
    | (Continue, l') => check_inotify verbose inotify_fd w l'
    end
  else pure (Continue, l).

(** Where the loop stands once the operating system has given its answers. *)
Inductive loop_result : Type :=
| Left_loop (l : locals)          (* a [break] was taken *)
| Still_waiting (l : locals).     (* every answer is used up: back in poll *)

(** The [for (;;)], driven by the answers of one pass after the other. *)
Fixpoint event_loop (command : string) (verbose : bool)
    (signal_fd inotify_fd : Z) (ws : list iteration) (l : locals)
    : M loop_result :=
  match ws with
  | [] => pure (Still_waiting l)
  | w :: ws' =>
      r <- loop_body command verbose signal_fd inotify_fd w l;;
      match r with
      | (Break, l') => pure (Left_loop l')
      | (Continue, l') =>
          event_loop command verbose signal_fd inotify_fd ws' l'
      end
  end.

(** [watch_for_changes]; the result is [None] when the loop is still waiting
    after the last answer. *)
Definition watch_for_changes (w : startup) (ws : list iteration)
    (watch_target command : string) (continuous verbose : bool)
    : M (option Z) :=
  signal_fd <- initialize_signals w;;
  if signal_fd =? -1 then
    emit (Stderr (text ["Unable to initialise signal handler"; nl]%string));;
    pure (Some EXIT_FAILURE)
  else
    inotify_fd <- initialise_watcher w watch_target verbose;;
    if inotify_fd =? -1 then
      emit (Sys_close signal_fd);;
      emit (Stderr (text ["Unable to initialise watch handler"; nl]%string));;
      pure (Some EXIT_FAILURE)
    else
      r <- event_loop command verbose signal_fd inotify_fd ws
             (Locals EXIT_SUCCESS 0);;
      match r with
      | Still_waiting _ => pure None
      | Left_loop l =>
          when verbose (emit (Stdout (text ["Closing down."; nl]%string)));;
          shutdown_watcher;;
          emit (Sys_close signal_fd);;
          pure (Some (ret l))
      end.

(** Whether a list of actions contains a call of [poll] or of [system]. *)
Definition is_poll (a : action) : bool :=
  match a with Sys_poll _ _ _ => true | _ => false end.
Definition is_system (a : action) : bool :=
  match a with Sys_system _ => true | _ => false end.

(** ** Batches as the kernel writes them

    A read of an inotify descriptor returns whole records, one after the
    other: [struct inotify_event { int wd; uint32_t mask; uint32_t cookie;
    uint32_t len; char name[]; }], where [len] is the size of [name], its
    terminating and padding NULs included. *)

Record inotify_event : Type := Inotify_event {
  wd : Z;
  mask : Z;
  cookie : Z;
  name : list byte                   (* the [len] bytes of the name field *)
}.

Definition len (e : inotify_event) : Z := Z.of_nat (List.length (name e)).

Definition le32_bytes (x : Z) : list byte :=
  [byte_of_Z x; byte_of_Z (x / 2 ^ 8); byte_of_Z (x / 2 ^ 16);
   byte_of_Z (x / 2 ^ 24)].

Definition encode (e : inotify_event) : list byte :=
  le32_bytes (wd e) ++ le32_bytes (mask e) ++ le32_bytes (cookie e)
  ++ le32_bytes (len e) ++ name e.

Definition encode_batch (es : list inotify_event) : list byte :=
  flat_map encode es.

(** The fields fit their C types, and a name that is present ends in a
    NUL. *)
Definition well_formed (e : inotify_event) : Prop :=
  CInt.INT_MIN <= wd e <= CInt.INT_MAX
  /\ 0 <= mask e < 2 ^ 32
  /\ 0 <= cookie e < 2 ^ 32
  /\ len e < 2 ^ 32
  /\ (name e = [] \/ In x00 (name e)).

(** [mask & IN_MODIFY] *)
Definition has_modify (e : inotify_event) : bool :=
  negb (Z.land (mask e) IN_MODIFY =? 0).



(** The line [report_event] prints for a record on its own. *)
Definition report_of (e : inotify_event) : string :=
  report_event (encode e) 0.

(** The answer of a [read] that delivers the batch [es]; the rest of the
    buffer holds whatever it held before, [junk]. *)
Definition read_of (es : list inotify_event) (junk : list byte)
    : read_result :=
  Read_result (Z.of_nat (List.length (encode_batch es)))
    (encode_batch es ++ junk).

(** The records of a batch that carry the modify kind, and the lines a
    verbose drain prints for them. *)
Definition count_modify (es : list inotify_event) : Z :=
  Z.of_nat (List.length (filter has_modify es)).

Definition reports (verbose : bool) (es : list inotify_event) : list action :=
  if verbose then map (fun e => Stdout (report_of e)) (filter has_modify es)
  else [].

(** [well_formed] as a test. *)
Definition well_formedb (e : inotify_event) : bool :=
  (CInt.INT_MIN <=? wd e) && (wd e <=? CInt.INT_MAX)
  && (0 <=? mask e) && (mask e <? 2 ^ 32)
  && (0 <=? cookie e) && (cookie e <? 2 ^ 32)
  && (len e <? 2 ^ 32)
  && match name e with
     | [] => true
     | _ => existsb (Byte.eqb x00) (name e)
     end.

(** ** Sample records *)

Definition bytes_of_string (s : string) : list byte := list_byte_of_string s.

(** A modification of the file [a.txt] in a watched directory. *)
Definition modify_a : inotify_event :=
  Inotify_event 1 IN_MODIFY 0 (bytes_of_string "a.txt" ++ repeat x00 11).

(** A second modification, of [b.txt]. *)
Definition modify_b : inotify_event :=
  Inotify_event 1 IN_MODIFY 0 (bytes_of_string "b.txt" ++ repeat x00 11).

(** A read access of the watched file itself. *)
Definition access_self : inotify_event := Inotify_event 1 IN_ACCESS 0 [].

(** The two halves of one rename, with the same cookie. *)
Definition moved_from_a : inotify_event :=
  Inotify_event 1 IN_MOVED_FROM 7 (bytes_of_string "a" ++ repeat x00 15).
Definition moved_to_b : inotify_event :=
  Inotify_event 1 IN_MOVED_TO 7 (bytes_of_string "b" ++ repeat x00 15).

(** ** How a child ends

    [system] returns the wait status of the shell: glibc builds it as
    [(code << 8)] for a normal exit and as [sig | 0x80] or [sig] for a child
    killed by signal [sig], with or without a core dump. *)

Inductive termination : Type :=
| Exited (code : Z)
| Signaled (sig : Z) (core : bool).

Definition WCOREFLAG : Z := 0x80.

Definition wait_status (t : termination) : Z :=
  match t with
  | Exited code => Z.shiftl code 8
  | Signaled sig core => Z.lor sig (if core then WCOREFLAG else 0)
  end.

(** An exit code is one byte; Linux numbers its signals from 1 to 64. *)
Definition valid_termination (t : termination) : Prop :=
  match t with
  | Exited code => 0 <= code <= 255
  | Signaled sig _ => 1 <= sig <= 64
  end.

(** The timeout of the wait a pass starts with. *)
Definition poll_timeout (acts : list action) : option Z :=
  match acts with
  | Sys_poll _ _ timeout :: _ => Some timeout
  | _ => None
  end.

(** ** Sample passes through the loop *)

(** The wait times out; [system], if called, returns [rc]. *)
Definition timeout_pass (rc : Z) : iteration :=
  Iteration 0 0 0 EmptyString 0 0 (Read_result 0 []) rc.

(** The inotify descriptor is ready and delivers the batch [es]. *)
Definition change_pass (es : list inotify_event) : iteration :=
  Iteration 1 0 POLLIN EmptyString 0 0 (read_of es []) 0.

(** The signal descriptor is ready and delivers signal [signo]. *)
Definition signal_pass (signo : Z) : iteration :=
  Iteration 1 POLLIN 0 EmptyString sizeof_signalfd_siginfo signo
    (Read_result 0 []) 0.

(** A pass drains the change source and finds at least one modify record. *)
Definition drained_modify (w : iteration) : bool :=
  negb (Z.land (ino_revents w) POLLIN =? 0)
  && (result (watch_handler (ino_read w) 0 false initial_handles) >? 0).

Definition positive_drains (ws : list iteration) : Z :=
  Z.of_nat (List.length (filter drained_modify ws)).

(** A pass in which some descriptor is ready and no signal is delivered. *)
Definition ready_without_signal (w : iteration) : Prop :=
  poll_ret w > 0 /\ Z.land (sig_revents w) POLLIN = 0.

(** A start-up in which the signal descriptor (3) and the inotify instance
    (4) are created but the watch on the target is refused. *)
Definition watch_refused : startup :=
  Startup 0 3 4 (-1) "No such file or directory".

(** A start-up in which the inotify instance itself is refused. *)
Definition monitor_refused : startup :=
  Startup 0 3 (-1) (-1) "Too many open files".

(** ** The claims that fail, as they are stated *)

(** After a drain that returns a count above zero the pending counter has
    grown by that count. *)
Definition pending_grows_by_count : Prop :=
  forall command verbose signal_fd inotify_fd w l h,
  ready_without_signal w ->
  Z.land (ino_revents w) POLLIN <> 0 ->
  let count := result (watch_handler (ino_read w) inotify_fd verbose h) in
  0 <= watch_events l -> watch_events l + count <= CInt.INT_MAX ->
  count > 0 ->
  watch_events
    (snd (result (loop_body command verbose signal_fd inotify_fd w l h)))
  = watch_events l + count.

(** The helper signals stop (returns nonzero) exactly when the loop, after
    the same invocation, breaks. *)
Definition helper_agrees_with_loop : Prop :=
  forall rc command verbose signal_fd inotify_fd w l h,
  poll_ret w = 0 -> watch_events l > 0 -> system_ret w = rc ->
  (result (execute_command rc command verbose h) <> 0
   <-> fst (result (loop_body command verbose signal_fd inotify_fd w l h))
       = Break).

(** When the watch is refused after the monitor was created,
    [watch_for_changes] returns failure, never waits, and closes the signal
    descriptor. *)
Definition registration_failure_is_fatal : Prop :=
  forall w ws watch_target command continuous verbose h,
  0 <= sigprocmask_ret w -> 0 <= signalfd_ret w ->
  inotify_init_ret w <> -1 -> inotify_add_watch_ret w = -1 ->
  let r := watch_for_changes w ws watch_target command continuous verbose h in
  result r = Some EXIT_FAILURE
  /\ existsb is_poll (actions r) = false
  /\ In (Sys_close (signalfd_ret w)) (actions r).

(** ** What the registered watch delivers *)





(** * main.c

    The entry point: it reads the command line through [getopt_long], keeps
    what it finds in five file-scope variables and, when a target and a
    command were given, calls [watch_for_changes]. *)

Definition VERSION_NO : Z := 0.
Definition BUILD_NO : string := "0.138".
Definition APP_TITLE : string := "File/Directory Watcher".
Definition APP_HELP : string :=
  text ["Watches for a change on a file, files or directory,"; nl;
        "then executes the given command"]%string.

(** [enum opt_idents_e] *)
Definition OID_HELP    : Z := 0.
Definition OID_VERSION : Z := 1.
Definition OID_PATH    : Z := 2.
Definition OID_FILE    : Z := 3.
Definition OID_STDIN   : Z := 4.
Definition OID_EXEC    : Z := 5.
Definition OID_ONCE    : Z := 6.
Definition OID_VERBOSE : Z := 7.
Definition OID_END     : Z := 8.

(** [s_option_help], without its closing [NULL]. *)
Definition s_option_help : list string :=
  ["-?,-h,--help   displays this message.";
   "--version      displays the version and build number of this program.";
   "--path         displays the program path on stdout.";
   "--file,-f      activates the monitor unit.";
   "--stdin,-s     read stdin rather than a file.";
   "--exec,-e      program to execute upon a change event";
   "--once,-1      waits for a single change, default is a continuous scan.";
   "--verbose,-v   prints debug information and event data to stdout"]%string.

(** The code of a character constant. *)
Definition char_code (c : ascii) : Z := Z.of_N (N_of_ascii c).

Definition tab : string := String (ascii_of_nat 9) EmptyString.

(** [%u] *)
Definition fmt_u (z : Z) : string :=
  NilZero.string_of_int (Z.to_int (CInt.to_uint z)).

Definition oct_digit (d : Z) : ascii :=
  nth (Z.to_nat d) (list_ascii_of_string "01234567") "0"%char.

Fixpoint oct_fixed (n : nat) (z : Z) : string :=
  match n with
  | O => EmptyString
  | S k =>
      (oct_fixed k (z / 8) ++ String (oct_digit (z mod 8)) EmptyString)%string
  end.

(** [%o]: an [unsigned] has at most eleven octal digits. *)
Definition fmt_o (z : Z) : string :=
  strip_zeros (oct_fixed 11 (CInt.to_uint z)).

(** The five file-scope variables of [main.c]; a [NULL] string is [None]. *)
Record options : Type := Options {
  s_watch_target : option string;
  s_exec_command : option string;
  s_watch_stdin : bool;
  s_continuous : bool;
  s_verbose : bool
}.

(** Their initialisers. *)
Definition initial_options : options := Options None None false true false.

(** What one call of [getopt_long] leaves behind: its return value, the
    value of [option_index] (set to 0 before the call), [optarg], and the
    message the library itself wrote to standard error during the call, if
    it wrote one. *)
Record getopt_answer : Type := Getopt {
  go_ret : Z;
  go_index : Z;
  go_optarg : option string;
  go_diagnostic : option string
}.

(** One call of [getopt_long].  The library writes a message of its own
    only on its way to returning '?': for an option it does not know ([-?]
    itself is one) and for an argument that is missing.  For [--help], whose
    code in [s_long_options] is '?' too, it writes nothing. *)
Definition getopt_long (a : getopt_answer) : M Z :=
  (if go_ret a =? char_code "?" then
     match go_diagnostic a with
     | Some message => emit (Stderr message)
     | None => pure tt
     end
   else pure tt);;
  pure (go_ret a).

(** [sizeof(path)] in [report_path]. *)
Definition sizeof_path : Z := 256.

(** [report_path]; [cwd] is what [path] holds after the call of [getcwd]:
    the directory, or, when the call fails (its return value is not looked
    at), whatever the array held before. *)
Definition report_path (cwd title : string) : M unit :=
  emit (Sys_getcwd sizeof_path);;
  emit (Stdout (text [title; ": "; cwd; nl]%string)).

Definition report_version : M unit :=
  emit (Stdout (text ["Version "; fmt_u VERSION_NO; ":"; BUILD_NO;
                      nl]%string)).

(** The [while (s_option_help[help] != NULL)] loop of [report_help]. *)
Fixpoint report_help_lines (lines : list string) : M unit :=
  match lines with
  | [] => pure tt
  | line :: rest =>
      emit (Stdout (text [tab; line; nl]%string));;
      report_help_lines rest
  end.

Definition report_help (cwd : string) : M unit :=
  report_path cwd APP_TITLE;;
  emit (Stdout (text [APP_HELP; nl]%string));;
  report_help_lines s_option_help;;
  emit (Stdout nl).

(** [option_index] after the chain [if (c == '?' || c == 'h') ... else if
    (c == 'v') ...]: a short option code decides it, otherwise it is what
    [getopt_long] left. *)
Definition option_ident (a : getopt_answer) : Z :=
  let c := go_ret a in
  if (c =? char_code "?") || (c =? char_code "h") then OID_HELP
  else if c =? char_code "f" then OID_FILE
  else if c =? char_code "s" then OID_STDIN
  else if c =? char_code "e" then OID_EXEC
  else if c =? char_code "1" then OID_ONCE
  else if c =? char_code "v" then OID_VERBOSE
  else go_index a.

(** The [switch (option_index)]: the new value of [run] and of the
    variables. *)
Definition process_option (cwd : string) (a : getopt_answer) (o : options)
    : M (bool * options) :=
  let id := option_ident a in
  if id =? OID_HELP then report_help cwd;; pure (false, o)
  else if id =? OID_VERSION then report_version;; pure (false, o)
  else if id =? OID_PATH then report_path cwd APP_TITLE;; pure (false, o)
  else if id =? OID_FILE then
    pure (true, Options (go_optarg a) (s_exec_command o) false
                  (s_continuous o) (s_verbose o))
  else if id =? OID_STDIN then
    pure (true, Options None (s_exec_command o) true
                  (s_continuous o) (s_verbose o))
  else if id =? OID_EXEC then
    pure (true, Options (s_watch_target o) (go_optarg a) (s_watch_stdin o)
                  (s_continuous o) (s_verbose o))
  else if id =? OID_ONCE then
    pure (true, Options (s_watch_target o) (s_exec_command o)
                  (s_watch_stdin o) false (s_verbose o))
  else if id =? OID_VERBOSE then
    pure (true, Options (s_watch_target o) (s_exec_command o)
                  (s_watch_stdin o) (s_continuous o) true)
  else
    emit (Stdout (text ["?? getopt returned character code 0";
                        fmt_o (go_ret a); " ??"; nl]%string));;
    pure (false, o).

(** The [while (run)] loop, driven by the answers of [getopt_long]; when
    they are used up [getopt_long] returns -1. *)
Fixpoint parse_options (cwd : string) (answers : list getopt_answer)
    (o : options) : M (bool * options) :=
  match answers with
  | [] => pure (true, o)
  | a :: rest =>
      c <- getopt_long a;;
      if c =? -1 then pure (true, o)
      else
        r <- process_option cwd a o;;
        match r with
        | (true, o') => parse_options cwd rest o'
        | (false, o') => pure (false, o')
        end
  end.

(** [main]; like [watch_for_changes], it gives [None] while the loop is
    still waiting. *)
Definition main (argc : Z) (cwd : string) (answers : list getopt_answer)
    (w : startup) (ws : list iteration) : M (option Z) :=
  if argc =? 1 then report_help cwd;; pure (Some EXIT_FAILURE)
  else
    r <- parse_options cwd answers initial_options;;
    match r with
    | (true, o) =>
        match s_watch_target o, s_exec_command o with
        | None, _ =>
            emit (Stdout
                    (text ["Please supply a filename pattern to watch for changes.";
                           nl]%string));;
            pure (Some EXIT_FAILURE)
        | Some _, None =>
            emit (Stdout
                    (text ["Please supply a command to execute on file chaneg.";
                           nl]%string));;
            pure (Some EXIT_FAILURE)
        | Some target, Some command =>
            when (s_verbose o)
              (emit (Stdout (text [if s_continuous o then "Continuous"
                                   else "Single";
                                   " watch for change on "; target;
                                   nl]%string));;
               emit (Stdout (text ["Execute '"; command; "' on event.";
                                   nl]%string)));;
            watch_for_changes w ws target command (s_continuous o)
              (s_verbose o)
        end
    | (false, _) => pure (Some EXIT_FAILURE)
    end.

(** ** Sample command lines *)

Definition opt_file (target : string) : getopt_answer :=
  Getopt (char_code "f") 0 (Some target) None.
Definition opt_exec (command : string) : getopt_answer :=
  Getopt (char_code "e") 0 (Some command) None.
Definition opt_stdin : getopt_answer := Getopt (char_code "s") 0 None None.
Definition opt_once : getopt_answer := Getopt (char_code "1") 0 None None.
Definition opt_verbose : getopt_answer := Getopt (char_code "v") 0 None None.
Definition opt_help : getopt_answer := Getopt (char_code "h") 0 None None.
(** [--version] and [--path] have no short code: [getopt_long] returns 0 and
    sets [option_index] to their place in [s_long_options]. *)
Definition opt_version : getopt_answer := Getopt 0 1 None None.
Definition opt_path : getopt_answer := Getopt 0 2 None None.
(** [--help] comes back as '?', the code [s_long_options] gives it. *)
Definition opt_long_help : getopt_answer :=
  Getopt (char_code "?") 0 None None.
(** An option [getopt_long] does not know, here [-x]: it says so and
    returns '?'. *)
Definition opt_unknown : getopt_answer :=
  Getopt (char_code "?") 0 None
    (Some (text ["watchf: invalid option -- 'x'"; nl]%string)).

(** ** Reading a list of actions *)

(** Text written, as opposed to a system call made. *)
Definition is_output (a : action) : bool :=
  match a with Stdout _ | Stderr _ => true | _ => false end.

(** The system calls of a list of actions, in order. *)
Definition system_calls (t : list action) : list action :=
  filter (fun a => negb (is_output a)) t.

(** How often the command was run. *)
Definition count_system (t : list action) : Z :=
  Z.of_nat (List.length (filter is_system t)).

(** The locals a loop result carries. *)
Definition locals_of (r : loop_result) : locals :=
  match r with Left_loop l => l | Still_waiting l => l end.

(** The signal descriptor is ready and delivers a whole record. *)
Definition signal_read_ok (w : iteration) : Prop :=
  poll_ret w > 0 /\ Z.land (sig_revents w) POLLIN <> 0
  /\ sig_read_ret w = sizeof_signalfd_siginfo.

(** A pass that ends the session with failure: the wait fails, or the
    signal descriptor is ready and the read of it is short. *)
Definition fatal_pass (w : iteration) : bool :=
  (poll_ret w <? 0)
  || ((poll_ret w >? 0) && negb (Z.land (sig_revents w) POLLIN =? 0)
      && negb (sig_read_ret w =? sizeof_signalfd_siginfo)).

(** A start-up in which every call succeeds. *)
Definition startup_ok (w : startup) : Prop :=
  0 <= sigprocmask_ret w /\ 0 <= signalfd_ret w
  /\ inotify_init_ret w <> -1 /\ inotify_add_watch_ret w <> -1.

(** An answer of [getopt_long] that only sets a variable: a file, stdin,
    exec, once or verbose option. *)
Definition is_setting (a : getopt_answer) : bool :=
  negb (go_ret a =? -1)
  && (OID_FILE <=? option_ident a) && (option_ident a <=? OID_VERBOSE).


Definition is_file (a : getopt_answer) : bool :=
  negb (go_ret a =? -1) && (option_ident a =? OID_FILE).

(** The same pass with the signal descriptor not ready. *)
Definition without_signal (w : iteration) : iteration :=
  Iteration (poll_ret w) 0 (ino_revents w) (poll_strerror w)
    (sig_read_ret w) (ssi_signo w) (ino_read w) (system_ret w).

(** The loop of a session whose start-up succeeded: on the two descriptors
    the start-up returned, from no events pending. *)
Definition session_loop (w : startup) (ws : list iteration)
    (command : string) (verbose : bool) : loop_result * handles * list action :=
  event_loop command verbose (signalfd_ret w) (inotify_init_ret w) ws
    (Locals EXIT_SUCCESS 0)
    (Handles (inotify_add_watch_ret w) (inotify_init_ret w)).

(** A call that releases a descriptor or a watch. *)
Definition is_release (a : action) : bool :=
  match a with
  | Sys_close _ | Sys_inotify_rm_watch _ _ => true
  | _ => false
  end.

(** Two computations that differ in what they print at most: from the same
    handles they give the same result, leave the same handles and make the
    same system calls. *)
Definition agree_up_to_output {A} (m1 m2 : M A) : Prop :=
  forall h,
  result (m1 h) = result (m2 h)
  /\ handles_of (m1 h) = handles_of (m2 h)
  /\ system_calls (actions (m1 h)) = system_calls (actions (m2 h)).

Definition is_exec (a : getopt_answer) : bool :=
  negb (go_ret a =? -1) && (option_ident a =? OID_EXEC).


(** * Properties *)

(** ** Integers *)

Lemma to_int_id z : CInt.in_int z -> CInt.to_int z = z.
Proof.
  unfold CInt.in_int, CInt.INT_MIN, CInt.INT_MAX, CInt.to_int. intros H.
  rewrite Z.mod_small; lia.
Qed.

Lemma incr_small z : CInt.INT_MIN <= z < CInt.INT_MAX -> CInt.incr z = z + 1.
Proof.
  unfold CInt.incr. intros H. apply to_int_id. unfold CInt.in_int. lia.
Qed.

(** ** Bytes and fields *)

Lemma Z_of_byte_range b : 0 <= Z_of_byte b < 256.
Proof.
  unfold Z_of_byte. pose proof (Byte.to_N_bounded b). lia.
Qed.

Lemma Z_of_byte_of_Z z : Z_of_byte (byte_of_Z z) = z mod 256.
Proof.
  unfold Z_of_byte, byte_of_Z.
  assert (Hr : 0 <= z mod 256 < 256) by (apply Z.mod_pos_bound; lia).
  destruct (Byte.of_N (Z.to_N (z mod 256))) as [b|] eqn:E.
  - apply Byte.to_of_N in E. rewrite E. lia.
  - apply Byte.of_N_None_iff in E. lia.
Qed.

Lemma byte_at_app_r pre l k :
  0 <= k -> byte_at (pre ++ l) (Z.of_nat (List.length pre) + k) = byte_at l k.
Proof.
  intros Hk. unfold byte_at. f_equal.
  replace (Z.to_nat (Z.of_nat (List.length pre) + k))
    with (List.length pre + Z.to_nat k)%nat by lia.
  rewrite app_nth2 by lia. f_equal. lia.
Qed.

Lemma byte_at_app_l l rest k :
  0 <= k < Z.of_nat (List.length l) -> byte_at (l ++ rest) k = byte_at l k.
Proof.
  intros Hk. unfold byte_at. f_equal. apply app_nth1. lia.
Qed.

Lemma le32_app_r pre l k :
  0 <= k -> le32 (pre ++ l) (Z.of_nat (List.length pre) + k) = le32 l k.
Proof.
  intros Hk. unfold le32.
  rewrite <- !Z.add_assoc, !byte_at_app_r by lia. reflexivity.
Qed.

Lemma le32_app_l l rest k :
  0 <= k -> k + 3 < Z.of_nat (List.length l) -> le32 (l ++ rest) k = le32 l k.
Proof.
  intros Hk Hl. unfold le32. rewrite !byte_at_app_l by lia. reflexivity.
Qed.

Lemma le32_cons4 a b c d rest :
  le32 (a :: b :: c :: d :: rest) 0
  = Z_of_byte a + 2 ^ 8 * Z_of_byte b + 2 ^ 16 * Z_of_byte c
    + 2 ^ 24 * Z_of_byte d.
Proof. reflexivity. Qed.

Lemma le32_le32_bytes x rest :
  0 <= x < 2 ^ 32 -> le32 (le32_bytes x ++ rest) 0 = x.
Proof.
  intros Hx. unfold le32_bytes. cbn [app].
  rewrite le32_cons4, !Z_of_byte_of_Z.
  change (2 ^ 8) with 256. change (2 ^ 16) with 65536.
  change (2 ^ 24) with 16777216. change (2 ^ 32) with 4294967296 in Hx.
  Z.to_euclidean_division_equations. lia.
Qed.

Lemma le32_range buf off : 0 <= le32 buf off < 2 ^ 32.
Proof.
  unfold le32, byte_at.
  pose proof (Z_of_byte_range (nth (Z.to_nat off) buf x00)).
  pose proof (Z_of_byte_range (nth (Z.to_nat (off + 1)) buf x00)).
  pose proof (Z_of_byte_range (nth (Z.to_nat (off + 2)) buf x00)).
  pose proof (Z_of_byte_range (nth (Z.to_nat (off + 3)) buf x00)).
  change (2 ^ 8) with 256. change (2 ^ 16) with 65536.
  change (2 ^ 24) with 16777216. change (2 ^ 32) with 4294967296.
  lia.
Qed.

Lemma length_encode e :
  Z.of_nat (List.length (encode e)) = sizeof_inotify_event + len e.
Proof.
  unfold encode, le32_bytes, len, sizeof_inotify_event. cbn [app List.length].
  lia.
Qed.

Lemma le32_local pre l rest k :
  0 <= k -> k + 3 < Z.of_nat (List.length l) ->
  le32 (pre ++ l ++ rest) (Z.of_nat (List.length pre) + k) = le32 l k.
Proof.
  intros Hk Hl. rewrite le32_app_r by lia. apply le32_app_l; lia.
Qed.

Lemma ev_mask_encode e : 0 <= mask e < 2 ^ 32 -> ev_mask (encode e) 0 = mask e.
Proof.
  intros H. unfold ev_mask, encode.
  change (0 + 4) with (Z.of_nat (List.length (le32_bytes (wd e))) + 0).
  rewrite le32_app_r by lia. apply le32_le32_bytes, H.
Qed.

Lemma ev_len_encode e : len e < 2 ^ 32 -> ev_len (encode e) 0 = len e.
Proof.
  intros H. unfold ev_len, encode. rewrite !app_assoc, <- app_assoc.
  change (0 + 12)
    with (Z.of_nat (List.length ((le32_bytes (wd e) ++ le32_bytes (mask e))
                                 ++ le32_bytes (cookie e))) + 0).
  rewrite le32_app_r by lia. apply le32_le32_bytes. unfold len in *. lia.
Qed.

Lemma c_string_app l rest : In x00 l -> c_string (l ++ rest) = c_string l.
Proof.
  induction l as [|b l IH]; intros Hin; [destruct Hin|].
  cbn [app c_string]. destruct (Byte.eqb b x00) eqn:E; [reflexivity|].
  f_equal. apply IH. destruct Hin as [Hb | Hin]; [|exact Hin].
  subst b. discriminate E.
Qed.

Lemma skipn_header pre e rest :
  skipn (Z.to_nat (Z.of_nat (List.length pre) + sizeof_inotify_event))
        (pre ++ encode e ++ rest)
  = name e ++ rest.
Proof.
  replace (Z.to_nat (Z.of_nat (List.length pre) + sizeof_inotify_event))
    with (List.length pre + 16)%nat by (unfold sizeof_inotify_event; lia).
  rewrite skipn_app, skipn_all2 by lia.
  replace (List.length pre + 16 - List.length pre)%nat with 16%nat by lia.
  unfold encode, le32_bytes. cbn [app skipn]. reflexivity.
Qed.

(** A record is decoded and reported in the same way wherever it lies in the
    buffer. *)
Section Locality.

Variables (pre rest : list byte) (e : inotify_event).
Hypothesis He : well_formed e.

Let buf := pre ++ encode e ++ rest.
Let ev := Z.of_nat (List.length pre).

Lemma encode_long k : 0 <= k <= 12 -> k + 3 < Z.of_nat (List.length (encode e)).
Proof. rewrite length_encode. unfold sizeof_inotify_event, len. lia. Qed.

Lemma ev_wd_local : ev_wd buf ev = ev_wd (encode e) 0.
Proof.
  unfold ev_wd, buf, ev. f_equal.
  rewrite <- (Z.add_0_r (Z.of_nat (List.length pre))).
  apply le32_local; [lia | apply encode_long; lia].
Qed.

Lemma ev_mask_local : ev_mask buf ev = ev_mask (encode e) 0.
Proof.
  unfold ev_mask, buf, ev. apply le32_local; [lia | apply encode_long; lia].
Qed.

Lemma ev_cookie_local : ev_cookie buf ev = ev_cookie (encode e) 0.
Proof.
  unfold ev_cookie, buf, ev.
  apply le32_local; [lia | apply encode_long; lia].
Qed.

Lemma ev_len_local : ev_len buf ev = ev_len (encode e) 0.
Proof.
  unfold ev_len, buf, ev. apply le32_local; [lia | apply encode_long; lia].
Qed.

Lemma ev_mask_decoded : ev_mask buf ev = mask e.
Proof. rewrite ev_mask_local. apply ev_mask_encode, He. Qed.

Lemma ev_len_decoded : ev_len buf ev = len e.
Proof. rewrite ev_len_local. apply ev_len_encode, He. Qed.

Lemma ev_name_local : len e <> 0 -> ev_name buf ev = ev_name (encode e) 0.
Proof.
  intros Hlen. unfold ev_name, buf, ev. rewrite skipn_header.
  pose proof (skipn_header [] e []) as H0.
  cbn [List.length app Z.of_nat] in H0. rewrite app_nil_r in H0.
  rewrite app_nil_r in H0. rewrite H0.
  destruct He as (_ & _ & _ & _ & [Hn | Hn]).
  - unfold len in Hlen. rewrite Hn in Hlen. cbn in Hlen. lia.
  - apply c_string_app, Hn.
Qed.

Lemma report_event_local : report_event buf ev = report_of e.
Proof.
  unfold report_of, report_event.
  rewrite ev_wd_local, ev_mask_local, ev_cookie_local, ev_len_local.
  destruct (ev_len (encode e) 0 =? 0) eqn:E; [reflexivity|].
  rewrite ev_name_local; [reflexivity|].
  rewrite ev_len_encode in E by apply He. lia.
Qed.

End Locality.

(** ** The drain loop *)

Lemma ev_len_nonneg buf ev : 0 <= ev_len buf ev.
Proof. unfold ev_len. apply le32_range. Qed.

(** Enough fuel is enough: the result does not depend on it. *)
Lemma watch_handler_loop_fuel buf len verbose n :
  forall m i events,
  (Z.to_nat (len - i) <= n)%nat -> (Z.to_nat (len - i) <= m)%nat ->
  watch_handler_loop n buf len verbose i events
  = watch_handler_loop m buf len verbose i events.
Proof.
  induction n as [|n IH]; intros m i events Hn Hm.
  - destruct m as [|m]; [reflexivity|]. cbn [watch_handler_loop].
    replace (i <? len) with false by (symmetry; apply Z.ltb_ge; lia).
    reflexivity.
  - destruct m as [|m]; cbn [watch_handler_loop].
    + replace (i <? len) with false by (symmetry; apply Z.ltb_ge; lia).
      reflexivity.
    + destruct (i <? len) eqn:E; [|reflexivity].
      apply Z.ltb_lt in E. pose proof (ev_len_nonneg buf i) as Hl.
      assert (Hs : 0 < sizeof_inotify_event) by reflexivity.
      destruct (Z.land (ev_mask buf i) IN_MODIFY =? 0).
      * apply IH; lia.
      * rewrite (IH m) by lia. reflexivity.
Qed.

(** The count starts from [events] and grows by at most one per pass. *)
Lemma watch_handler_loop_bounds buf len verbose fuel :
  forall i events,
  CInt.INT_MIN <= events -> events + Z.of_nat fuel <= CInt.INT_MAX ->
  events <= fst (watch_handler_loop fuel buf len verbose i events)
         <= events + Z.of_nat fuel.
Proof.
  induction fuel as [|fuel IH]; intros i events H0 Hmax;
    cbn [watch_handler_loop]; [cbn; lia|].
  destruct (i <? len); [|cbn [fst]; lia].
  destruct (Z.land (ev_mask buf i) IN_MODIFY =? 0).
  - specialize (IH (i + (sizeof_inotify_event + ev_len buf i)) events).
    lia.
  - specialize (IH (i + (sizeof_inotify_event + ev_len buf i)) (events + 1)).
    rewrite incr_small by lia.
    destruct (watch_handler_loop fuel buf len verbose
                (i + (sizeof_inotify_event + ev_len buf i)) (events + 1)).
    cbn [fst] in *. lia.
Qed.

(** A loop that never starts returns the count it was given and prints
    nothing. *)
Lemma watch_handler_loop_empty fuel buf len verbose i events :
  len <= i -> watch_handler_loop fuel buf len verbose i events = (events, []).
Proof.
  intros H. destruct fuel; cbn [watch_handler_loop]; [reflexivity|].
  replace (i <? len) with false by (symmetry; apply Z.ltb_ge; lia).
  reflexivity.
Qed.

Lemma length_encode_batch_cons e es :
  Z.of_nat (List.length (encode_batch (e :: es)))
  = sizeof_inotify_event + len e + Z.of_nat (List.length (encode_batch es)).
Proof.
  unfold encode_batch. cbn [flat_map]. rewrite length_app, Nat2Z.inj_add.
  rewrite length_encode. reflexivity.
Qed.

Lemma length_encode_batch es :
  sizeof_inotify_event * Z.of_nat (List.length es)
  <= Z.of_nat (List.length (encode_batch es)).
Proof.
  induction es as [|e es IH]; [cbn; lia|].
  rewrite length_encode_batch_cons. cbn [List.length].
  unfold sizeof_inotify_event, len in *. lia.
Qed.

Lemma count_modify_cons e es :
  count_modify (e :: es)
  = (if has_modify e then 1 else 0) + count_modify es.
Proof.
  unfold count_modify. cbn [filter].
  destruct (has_modify e); cbn [List.length]; lia.
Qed.

Lemma reports_cons verbose e es :
  reports verbose (e :: es)
  = (if has_modify e
     then if verbose then [Stdout (report_of e)] else []
     else []) ++ reports verbose es.
Proof.
  unfold reports. cbn [filter].
  destruct (has_modify e), verbose; reflexivity.
Qed.

(** On a batch of whole records the loop visits each record once: it counts
    those with the modify kind and, when verbose, reports exactly those. *)
Lemma watch_handler_loop_batch verbose es :
  Forall well_formed es ->
  forall pre junk fuel events,
  (List.length es <= fuel)%nat ->
  CInt.INT_MIN <= events ->
  events + Z.of_nat (List.length es) <= CInt.INT_MAX ->
  watch_handler_loop fuel (pre ++ encode_batch es ++ junk)
    (Z.of_nat (List.length pre) + Z.of_nat (List.length (encode_batch es)))
    verbose (Z.of_nat (List.length pre)) events
  = (events + count_modify es, reports verbose es).
Proof.
  induction 1 as [|e es He Hes IH]; intros pre junk fuel events Hfuel H0 Hmax.
  - rewrite watch_handler_loop_empty by (cbn; lia).
    unfold count_modify, reports. cbn. rewrite Z.add_0_r.
    destruct verbose; reflexivity.
  - destruct fuel as [|fuel]; [cbn in Hfuel; lia|].
    cbn [List.length] in Hfuel, Hmax.
    rewrite length_encode_batch_cons. cbn [watch_handler_loop].
    pose proof (length_encode_batch es) as Hlen.
    assert (Hle : 0 <= len e) by (unfold len; lia).
    assert (Hs : sizeof_inotify_event = 16) by reflexivity.
    replace (Z.of_nat (List.length pre) <?
             Z.of_nat (List.length pre)
             + (sizeof_inotify_event + len e
                + Z.of_nat (List.length (encode_batch es))))
      with true by (symmetry; apply Z.ltb_lt; lia).
    change (encode_batch (e :: es)) with (encode e ++ encode_batch es).
    rewrite <- (app_assoc (encode e)).
    rewrite ev_mask_decoded, ev_len_decoded, report_event_local by exact He.
    assert (Hnext : Z.of_nat (List.length pre) + (sizeof_inotify_event + len e)
                    = Z.of_nat (List.length (pre ++ encode e)))
      by (rewrite length_app, Nat2Z.inj_add, length_encode; reflexivity).
    rewrite Hnext.
    replace (Z.of_nat (List.length pre)
             + (sizeof_inotify_event + len e
                + Z.of_nat (List.length (encode_batch es))))
      with (Z.of_nat (List.length (pre ++ encode e))
            + Z.of_nat (List.length (encode_batch es))) by lia.
    rewrite (app_assoc pre (encode e)).
    rewrite count_modify_cons, reports_cons. unfold has_modify.
    destruct (Z.land (mask e) IN_MODIFY =? 0); cbn [negb].
    + rewrite IH by lia. reflexivity.
    + rewrite incr_small by lia. rewrite IH by lia. f_equal. lia.
Qed.

(** ** watch_handler on a batch *)

Lemma watch_handler_unfold r inf verbose h :
  watch_handler r inf verbose h
  = (fst (watch_handler_loop (Z.to_nat (rd_len r)) (rd_buf r) (rd_len r)
            verbose 0 0),
     h,
     Sys_read inf EVENT_BUF_LEN
     :: snd (watch_handler_loop (Z.to_nat (rd_len r)) (rd_buf r) (rd_len r)
               verbose 0 0)).
Proof.
  unfold watch_handler, bind, emit.
  destruct (watch_handler_loop _ _ _ _ _ _). reflexivity.
Qed.

(** [watch_handler] gives its loop enough fuel: more would change nothing. *)
Lemma watch_handler_fuel_enough r verbose fuel :
  (Z.to_nat (rd_len r) <= fuel)%nat ->
  watch_handler_loop (Z.to_nat (rd_len r)) (rd_buf r) (rd_len r) verbose 0 0
  = watch_handler_loop fuel (rd_buf r) (rd_len r) verbose 0 0.
Proof.
  intros H. apply watch_handler_loop_fuel; lia.
Qed.

Lemma watch_handler_batch es junk inf verbose h :
  Forall well_formed es ->
  Z.of_nat (List.length (encode_batch es)) <= EVENT_BUF_LEN ->
  watch_handler (read_of es junk) inf verbose h
  = (count_modify es, h, Sys_read inf EVENT_BUF_LEN :: reports verbose es).
Proof.
  intros Hwf Hlen. rewrite watch_handler_unfold. unfold read_of.
  cbn [rd_len rd_buf].
  pose proof (length_encode_batch es) as Hes.
  assert (Hs : sizeof_inotify_event = 16) by reflexivity.
  assert (Hb : EVENT_BUF_LEN = 256) by reflexivity.
  pose proof (watch_handler_loop_batch verbose es Hwf [] junk
                (Z.to_nat (Z.of_nat (List.length (encode_batch es)))) 0) as H.
  cbn [List.length app Z.of_nat Z.add] in H.
  rewrite H; [reflexivity | lia | unfold CInt.INT_MIN; lia
             | unfold CInt.INT_MAX; lia].
Qed.

Lemma well_formedb_sound e : well_formedb e = true -> well_formed e.
Proof.
  unfold well_formedb, well_formed. intros H.
  repeat (apply andb_prop in H; destruct H as [H ?]).
  repeat match goal with
         | H : (_ <=? _) = true |- _ => apply Z.leb_le in H
         | H : (_ <? _) = true |- _ => apply Z.ltb_lt in H
         end.
  repeat split; try assumption.
  destruct (name e) as [|b l] eqn:E; [left; reflexivity|right].
  match goal with
  | H : existsb _ _ = true |- _ =>
      apply existsb_exists in H; destruct H as (x & Hin & Hx)
  end.
  apply Byte.byte_dec_bl in Hx. subst x. exact Hin.
Qed.

Lemma Forall_well_formedb es :
  forallb well_formedb es = true -> Forall well_formed es.
Proof.
  intros H. apply Forall_forall. intros e He.
  apply well_formedb_sound. rewrite forallb_forall in H. apply H, He.
Qed.

(** ** C7 *)

(** C7: on a batch of whole records returned by one bounded read, drain
    ([watch_handler]) returns exactly the number of records whose event-kind
    bitset contains the modify kind; a batch with no such record gives
    zero. *)
Theorem drain_counts_modify_records es junk inf verbose h :
  Forall well_formed es ->
  Z.of_nat (List.length (encode_batch es)) <= EVENT_BUF_LEN ->
  result (watch_handler (read_of es junk) inf verbose h)
  = Z.of_nat (List.length (filter has_modify es))
  /\ ((forall e, In e es -> has_modify e = false) ->
      result (watch_handler (read_of es junk) inf verbose h) = 0).
Proof.
  intros Hwf Hlen. rewrite watch_handler_batch by assumption.
  unfold result. cbn [fst]. split; [reflexivity|].
  intros Hnone. unfold count_modify.
  replace (filter has_modify es) with (@nil inotify_event); [reflexivity|].
  symmetry. clear Hwf Hlen. induction es as [|e es IH]; [reflexivity|].
  cbn [filter]. rewrite (Hnone e) by (left; reflexivity).
  apply IH. intros e' He'. apply Hnone. right. exact He'.
Qed.

Lemma drain_counts_modify_records_witness :
  result (watch_handler
            (read_of [modify_a; moved_from_a; access_self; modify_b;
                      moved_to_b] [])
            4 true initial_handles)
  = 2
  /\ result (watch_handler (read_of [moved_from_a; moved_to_b] []) 4 true
               initial_handles)
     = 0.
Proof.
  split.
  - refine (proj1 (drain_counts_modify_records
                     [modify_a; moved_from_a; access_self; modify_b;
                      moved_to_b] [] 4 true initial_handles _ _)).
    + apply Forall_well_formedb. vm_compute. reflexivity.
    + vm_compute. congruence.
  - refine (proj2 (drain_counts_modify_records [moved_from_a; moved_to_b] []
                     4 true initial_handles _ _) _).
    + apply Forall_well_formedb. vm_compute. reflexivity.
    + vm_compute. congruence.
    + intros e [<- | [<- | []]]; reflexivity.
Defined.

(** ** C4 *)





(** ** C10 *)

Lemma loop_body_ready command verbose signal_fd inotify_fd w l h :
  poll_ret w > 0 -> Z.land (sig_revents w) POLLIN = 0 ->
  result (loop_body command verbose signal_fd inotify_fd w l h)
  = result (check_inotify verbose inotify_fd w l h).
Proof.
  intros Hp Hs. unfold loop_body, check_signal, bind, emit, pure.
  replace (poll_ret w =? 0) with false by (symmetry; apply Z.eqb_neq; lia).
  replace (poll_ret w <? 0) with false by (symmetry; apply Z.ltb_ge; lia).
  replace (poll_ret w >? 0) with true by (symmetry; apply Z.gtb_lt; lia).
  rewrite Hs. cbn [Z.eqb negb].
  destruct (check_inotify verbose inotify_fd w l h) as [[r h'] t].
  reflexivity.
Qed.

Lemma check_inotify_result verbose inotify_fd w l h :
  result (check_inotify verbose inotify_fd w l h)
  = if negb (Z.land (ino_revents w) POLLIN =? 0)
       && (result (watch_handler (ino_read w) inotify_fd verbose h) >? 0)
    then (Continue, Locals (ret l) (CInt.incr (watch_events l)))
    else (Continue, l).
Proof.
  unfold check_inotify.
  destruct (Z.land (ino_revents w) POLLIN =? 0); cbn [negb andb];
    [reflexivity|].
  unfold bind. rewrite watch_handler_unfold. unfold result. cbn [fst].
  destruct (fst (watch_handler_loop _ _ _ _ _ _) >? 0); reflexivity.
Qed.

(** C10: the count returned by drain is never negative; when the bounded
    read fails or returns no bytes, drain decodes nothing, prints nothing and
    returns zero, and the pass through the loop ends with the loop still
    running, its pending counter and its status unchanged. *)
Theorem drain_count_nonnegative r inf verbose h :
  rd_len r <= EVENT_BUF_LEN ->
  0 <= result (watch_handler r inf verbose h)
  /\ (rd_len r <= 0 ->
      watch_handler r inf verbose h = (0, h, [Sys_read inf EVENT_BUF_LEN]))
  /\ (rd_len r <= 0 ->
      forall command signal_fd inotify_fd w l,
      ino_read w = r ->
      poll_ret w > 0 -> Z.land (sig_revents w) POLLIN = 0 ->
      result (loop_body command verbose signal_fd inotify_fd w l h)
      = (Continue, l)).
Proof.
  intros Hlen. assert (Hb : EVENT_BUF_LEN = 256) by reflexivity.
  assert (Hfail : rd_len r <= 0 ->
                  watch_handler r inf verbose h
                  = (0, h, [Sys_read inf EVENT_BUF_LEN])).
  { intros H0. rewrite watch_handler_unfold.
    rewrite watch_handler_loop_empty by lia. reflexivity. }
  split; [|split].
  - rewrite watch_handler_unfold. unfold result. cbn [fst].
    pose proof (watch_handler_loop_bounds (rd_buf r) (rd_len r) verbose
                  (Z.to_nat (rd_len r)) 0 0) as H.
    unfold CInt.INT_MIN, CInt.INT_MAX in H. lia.
  - exact Hfail.
  - intros H0 command signal_fd inotify_fd w l Hr Hp Hs.
    rewrite loop_body_ready by assumption. rewrite check_inotify_result.
    rewrite Hr, watch_handler_unfold.
    rewrite watch_handler_loop_empty by lia. unfold result. cbn [fst].
    destruct (negb _); reflexivity.
Qed.

Lemma drain_count_nonnegative_witness :
  0 <= result (watch_handler (Read_result (-1) []) 4 true initial_handles)
  /\ watch_handler (Read_result (-1) []) 4 true initial_handles
     = (0, initial_handles, [Sys_read 4 EVENT_BUF_LEN])
  /\ result (loop_body "make" true 3 4
                (Iteration 1 0 POLLIN EmptyString 0 0 (Read_result (-1) []) 0)
                (Locals EXIT_SUCCESS 2) initial_handles)
     = (Continue, Locals EXIT_SUCCESS 2).
Proof.
  assert (Hlen : rd_len (Read_result (-1) []) <= EVENT_BUF_LEN)
    by (vm_compute; congruence).
  assert (H0 : rd_len (Read_result (-1) []) <= 0)
    by (vm_compute; congruence).
  pose proof (drain_count_nonnegative (Read_result (-1) []) 4 true
                initial_handles Hlen) as H.
  split; [exact (proj1 H) | split; [exact (proj1 (proj2 H) H0)|]].
  apply (proj2 (proj2 H) H0); [reflexivity | reflexivity | reflexivity].
Defined.

(** ** Wait statuses *)

Lemma WTERMSIG_mod status : WTERMSIG status = status mod 128.
Proof.
  unfold WTERMSIG. change 0x7f with (Z.ones 7).
  rewrite Z.land_ones by lia. reflexivity.
Qed.

Lemma wait_status_exited code : wait_status (Exited code) = code * 256.
Proof. cbn [wait_status]. rewrite Z.shiftl_mul_pow2 by lia. reflexivity. Qed.

Lemma WTERMSIG_exited code : WTERMSIG (wait_status (Exited code)) = 0.
Proof.
  rewrite WTERMSIG_mod, wait_status_exited.
  replace (code * 256) with (code * 2 * 128) by lia. apply Z_mod_mult.
Qed.

Lemma WTERMSIG_signaled sig core :
  0 <= sig < 128 -> WTERMSIG (wait_status (Signaled sig core)) = sig.
Proof.
  intros H. unfold WTERMSIG. cbn [wait_status].
  rewrite Z.land_lor_distr_l.
  replace (Z.land (if core then WCOREFLAG else 0) 127) with 0
    by (destruct core; reflexivity).
  rewrite Z.lor_0_r. change 127 with (Z.ones 7).
  rewrite Z.land_ones by lia. apply Z.mod_small. lia.
Qed.

Lemma WEXITSTATUS_exited code :
  0 <= code <= 255 -> WEXITSTATUS (wait_status (Exited code)) = code.
Proof.
  intros H. unfold WEXITSTATUS. rewrite wait_status_exited.
  change 0xff00 with (Z.shiftl (Z.ones 8) 8).
  replace (code * 256) with (Z.shiftl code 8)
    by (rewrite Z.shiftl_mul_pow2 by lia; reflexivity).
  rewrite <- Z.shiftl_land, Z.shiftr_shiftl_l by lia.
  change (8 - 8) with 0. rewrite Z.shiftl_0_r, Z.land_ones by lia.
  apply Z.mod_small. lia.
Qed.

(** ** The pass that times out *)

Lemma on_timeout_result command verbose w l h :
  result (on_timeout command verbose w l h)
  = if watch_events l >? 0 then
      (if negb (system_ret w =? 0) && negb (WIFEXITED (system_ret w) =? 0)
       then Break else Continue,
       Locals (ret l) 0)
    else (Continue, l).
Proof.
  unfold on_timeout, bind, emit, pure, when, result.
  destruct (watch_events l >? 0); [|reflexivity].
  destruct verbose, (system_ret w =? 0), (WIFEXITED (system_ret w) =? 0);
    reflexivity.
Qed.

Lemma on_timeout_actions command verbose w l h :
  existsb is_system (actions (on_timeout command verbose w l h))
  = (watch_events l >? 0).
Proof.
  unfold on_timeout, bind, emit, pure, when, actions.
  destruct (watch_events l >? 0); [|reflexivity].
  destruct verbose, (system_ret w =? 0), (WIFEXITED (system_ret w) =? 0);
    reflexivity.
Qed.

Lemma on_timeout_calls_system command verbose w l h :
  watch_events l > 0 ->
  In (Sys_system command) (actions (on_timeout command verbose w l h)).
Proof.
  intros Hp. unfold on_timeout, when, bind, emit, pure, actions.
  replace (watch_events l >? 0) with true by (symmetry; apply Z.gtb_lt; lia).
  destruct verbose, (system_ret w =? 0), (WIFEXITED (system_ret w) =? 0);
    cbn [snd app In negb]; auto.
Qed.

Lemma loop_body_timeout command verbose signal_fd inotify_fd w l h :
  poll_ret w = 0 ->
  result (loop_body command verbose signal_fd inotify_fd w l h)
  = result (on_timeout command verbose w l h)
  /\ actions (loop_body command verbose signal_fd inotify_fd w l h)
     = Sys_poll [signal_fd; inotify_fd] FD_POLL_MAX
         (if negb (watch_events l =? 0) then 100 else 1000)
       :: actions (on_timeout command verbose w l h).
Proof.
  intros Hp. unfold loop_body, bind, emit. rewrite Hp. cbn [Z.eqb].
  destruct (on_timeout command verbose w l h) as [[r h'] t].
  split; reflexivity.
Qed.

(** In the words of the macros: the loop ends after an invocation exactly
    when [WIFEXITED] holds of the status and [WEXITSTATUS] is not zero. *)
Lemma on_timeout_break_macros command verbose w l h t :
  watch_events l > 0 -> valid_termination t -> system_ret w = wait_status t ->
  fst (result (on_timeout command verbose w l h)) = Break
  <-> WIFEXITED (system_ret w) <> 0 /\ WEXITSTATUS (system_ret w) <> 0.
Proof.
  intros Hev Hv Hrc. rewrite on_timeout_result, Hrc.
  replace (watch_events l >? 0) with true by (symmetry; apply Z.gtb_lt; lia).
  cbn [fst]. unfold WIFEXITED. destruct t as [code | sig core];
    cbn [valid_termination] in Hv.
  - rewrite WEXITSTATUS_exited by lia.
    rewrite WTERMSIG_exited, wait_status_exited. cbn [Z.eqb negb].
    rewrite andb_true_r. destruct (code * 256 =? 0) eqn:E; cbn [negb].
    + apply Z.eqb_eq in E. split; [discriminate | lia].
    + apply Z.eqb_neq in E. split; [lia | reflexivity].
  - rewrite WTERMSIG_signaled by lia.
    replace (sig =? 0) with false by (symmetry; apply Z.eqb_neq; lia).
    cbn [Z.eqb negb]. rewrite andb_false_r. split; [discriminate | lia].
Qed.

(** When [system] itself fails and returns -1 the loop goes on. *)
Lemma system_failure_continues command verbose :
  fst (result (on_timeout command verbose (timeout_pass (-1))
                 (Locals EXIT_SUCCESS 1) initial_handles)) = Continue.
Proof. rewrite on_timeout_result. reflexivity. Qed.

(** ** C1 *)

(** C1: when a pass invokes the command (the wait timed out with events
    pending), the loop ends after that invocation if and only if the child
    left through a normal exit with a nonzero status; a child killed by a
    signal does not end it, nor does a normal exit with status zero. *)
Theorem command_exit_decides_stop command verbose signal_fd inotify_fd w l h t :
  poll_ret w = 0 -> watch_events l > 0 ->
  valid_termination t -> system_ret w = wait_status t ->
  In (Sys_system command)
     (actions (loop_body command verbose signal_fd inotify_fd w l h))
  /\ (fst (result (loop_body command verbose signal_fd inotify_fd w l h))
      = Break
      <-> exists code, t = Exited code /\ code <> 0).
Proof.
  intros Hp Hev Hv Hrc.
  destruct (loop_body_timeout command verbose signal_fd inotify_fd w l h Hp)
    as [Hres Hact].
  split.
  - rewrite Hact. right. apply on_timeout_calls_system, Hev.
  - rewrite Hres, on_timeout_result, Hrc.
    replace (watch_events l >? 0) with true by (symmetry; apply Z.gtb_lt; lia).
    cbn [fst]. unfold WIFEXITED. destruct t as [code | sig core].
    + rewrite WTERMSIG_exited, wait_status_exited. cbn [Z.eqb negb].
      rewrite andb_true_r. cbn [valid_termination] in Hv.
      destruct (code * 256 =? 0) eqn:E; cbn [negb].
      * apply Z.eqb_eq in E. split; [discriminate|].
        intros (c & Hc & Hnz). injection Hc as ->. lia.
      * apply Z.eqb_neq in E. split; [|reflexivity].
        intros _. exists code. split; [reflexivity | lia].
    + cbn [valid_termination] in Hv. rewrite WTERMSIG_signaled by lia.
      replace (sig =? 0) with false by (symmetry; apply Z.eqb_neq; lia).
      cbn [Z.eqb negb]. rewrite andb_false_r.
      split; [discriminate|]. intros (c & Hc & _). discriminate Hc.
Qed.

Lemma command_exit_decides_stop_witness :
  (fst (result (loop_body "make" false 3 4
                  (timeout_pass (wait_status (Exited 2)))
                  (Locals EXIT_SUCCESS 1) initial_handles)) = Break
   <-> exists code, Exited 2 = Exited code /\ code <> 0)
  /\ (fst (result (loop_body "make" false 3 4
                     (timeout_pass (wait_status (Signaled 9 false)))
                     (Locals EXIT_SUCCESS 1) initial_handles)) = Break
      <-> exists code, Signaled 9 false = Exited code /\ code <> 0)
  /\ (fst (result (loop_body "make" false 3 4
                     (timeout_pass (wait_status (Exited 0)))
                     (Locals EXIT_SUCCESS 1) initial_handles)) = Break
      <-> exists code, Exited 0 = Exited code /\ code <> 0).
Proof.
  split; [|split].
  - apply (command_exit_decides_stop "make" false 3 4
             (timeout_pass (wait_status (Exited 2))) (Locals EXIT_SUCCESS 1)
             initial_handles (Exited 2));
      [reflexivity | reflexivity | cbn; lia | reflexivity].
  - apply (command_exit_decides_stop "make" false 3 4
             (timeout_pass (wait_status (Signaled 9 false)))
             (Locals EXIT_SUCCESS 1) initial_handles (Signaled 9 false));
      [reflexivity | reflexivity | cbn; lia | reflexivity].
  - apply (command_exit_decides_stop "make" false 3 4
             (timeout_pass (wait_status (Exited 0))) (Locals EXIT_SUCCESS 1)
             initial_handles (Exited 0));
      [reflexivity | reflexivity | cbn; lia | reflexivity].
Defined.

(** ** C8 *)

Lemma watch_handler_loop_no_system buf len verbose fuel :
  forall i events,
  existsb is_system (snd (watch_handler_loop fuel buf len verbose i events))
  = false.
Proof.
  induction fuel as [|fuel IH]; intros i events; cbn [watch_handler_loop];
    [reflexivity|].
  destruct (i <? len); [|reflexivity].
  destruct (Z.land (ev_mask buf i) IN_MODIFY =? 0); [apply IH|].
  specialize (IH (i + (sizeof_inotify_event + ev_len buf i))
                (CInt.incr events)).
  destruct (watch_handler_loop fuel buf len verbose
              (i + (sizeof_inotify_event + ev_len buf i)) (CInt.incr events)).
  cbn [snd] in *. rewrite existsb_app, IH. destruct verbose; reflexivity.
Qed.

Lemma check_signal_no_system verbose signal_fd w l h :
  existsb is_system (actions (check_signal verbose signal_fd w l h)) = false.
Proof.
  unfold check_signal, when, bind, emit, pure, actions.
  destruct (Z.land (sig_revents w) POLLIN =? 0),
    (sig_read_ret w =? sizeof_signalfd_siginfo),
    ((ssi_signo w =? SIGINT) || (ssi_signo w =? SIGTERM)), verbose;
    reflexivity.
Qed.

Lemma check_inotify_no_system verbose inotify_fd w l h :
  existsb is_system (actions (check_inotify verbose inotify_fd w l h)) = false.
Proof.
  unfold check_inotify.
  destruct (Z.land (ino_revents w) POLLIN =? 0); cbn [negb]; [reflexivity|].
  unfold bind. rewrite watch_handler_unfold.
  pose proof (watch_handler_loop_no_system (rd_buf (ino_read w))
                (rd_len (ino_read w)) verbose
                (Z.to_nat (rd_len (ino_read w))) 0 0) as H.
  destruct (watch_handler_loop _ _ _ _ _ _) as [n out]. cbn [fst snd] in *.
  destruct (n >? 0); unfold pure, actions; cbn [snd];
    rewrite app_nil_r; cbn [existsb is_system orb]; exact H.
Qed.

Lemma loop_body_poll command verbose signal_fd inotify_fd w l h :
  exists rest,
    actions (loop_body command verbose signal_fd inotify_fd w l h)
    = Sys_poll [signal_fd; inotify_fd] FD_POLL_MAX
        (if negb (watch_events l =? 0) then 100 else 1000)
      :: rest
    /\ existsb is_system rest = (poll_ret w =? 0) && (watch_events l >? 0).
Proof.
  unfold loop_body, bind, emit.
  destruct (poll_ret w =? 0) eqn:E0; cbn [andb].
  - pose proof (on_timeout_actions command verbose w l h) as H.
    destruct (on_timeout command verbose w l h) as [[r h'] t].
    exists t. split; [reflexivity | exact H].
  - destruct (poll_ret w <? 0); [eexists; split; reflexivity|].
    destruct (poll_ret w >? 0); [|eexists; split; reflexivity].
    pose proof (check_signal_no_system verbose signal_fd w l h) as Hs.
    destruct (check_signal verbose signal_fd w l h) as [[[c l'] h1] t1].
    unfold actions in Hs. cbn [snd] in Hs. destruct c.
    + pose proof (check_inotify_no_system verbose inotify_fd w l' h1) as Hi.
      destruct (check_inotify verbose inotify_fd w l' h1) as [[r h2] t2].
      unfold actions in Hi. cbn [snd] in Hi.
      exists (t1 ++ t2). split; [reflexivity|].
      rewrite existsb_app, Hs, Hi. reflexivity.
    + exists (t1 ++ []). split; [reflexivity|].
      rewrite existsb_app, Hs. reflexivity.
Qed.

(** C8: every pass through the loop starts by waiting, with a timeout of
    1000 ms when no event is pending and of 100 ms when events are pending;
    and the pass invokes the command only when that wait returns zero ready
    descriptors while events are pending (and then it does). *)
Theorem loop_timeout_and_trigger command verbose signal_fd inotify_fd w l h :
  (watch_events l = 0 ->
   poll_timeout
     (actions (loop_body command verbose signal_fd inotify_fd w l h))
   = Some 1000)
  /\ (watch_events l > 0 ->
      poll_timeout
        (actions (loop_body command verbose signal_fd inotify_fd w l h))
      = Some 100)
  /\ (existsb is_system
        (actions (loop_body command verbose signal_fd inotify_fd w l h))
      = true
      <-> poll_ret w = 0 /\ watch_events l > 0).
Proof.
  destruct (loop_body_poll command verbose signal_fd inotify_fd w l h)
    as (rest & Hact & Hsys).
  rewrite Hact. cbn [poll_timeout existsb is_system orb]. rewrite Hsys.
  split; [|split].
  - intros ->. reflexivity.
  - intros Hp. replace (watch_events l =? 0) with false
      by (symmetry; apply Z.eqb_neq; lia).
    reflexivity.
  - rewrite andb_true_iff, Z.eqb_eq, Z.gtb_lt. lia.
Qed.

Lemma loop_timeout_and_trigger_witness :
  poll_timeout
    (actions (loop_body "make" false 3 4 (timeout_pass 0)
                (Locals EXIT_SUCCESS 0) initial_handles))
  = Some 1000
  /\ poll_timeout
       (actions (loop_body "make" false 3 4 (timeout_pass 0)
                   (Locals EXIT_SUCCESS 2) initial_handles))
     = Some 100
  /\ existsb is_system
       (actions (loop_body "make" false 3 4 (timeout_pass 0)
                   (Locals EXIT_SUCCESS 2) initial_handles))
     = true.
Proof.
  split; [|split].
  - apply (proj1 (loop_timeout_and_trigger "make" false 3 4 (timeout_pass 0)
                    (Locals EXIT_SUCCESS 0) initial_handles)).
    reflexivity.
  - apply (proj1 (proj2 (loop_timeout_and_trigger "make" false 3 4
                           (timeout_pass 0) (Locals EXIT_SUCCESS 2)
                           initial_handles))).
    reflexivity.
  - apply (proj2 (proj2 (loop_timeout_and_trigger "make" false 3 4
                           (timeout_pass 0) (Locals EXIT_SUCCESS 2)
                           initial_handles))).
    split; reflexivity.
Defined.

(** ** Sequencing *)

Lemma result_bind {A B} (m : M A) (k : A -> M B) h :
  result (bind m k h) = result (k (result (m h)) (handles_of (m h))).
Proof.
  unfold bind, result, handles_of. destruct (m h) as [[a h1] t1].
  cbn [fst snd]. destruct (k a h1) as [[b h2] t2]. reflexivity.
Qed.

Lemma handles_of_bind {A B} (m : M A) (k : A -> M B) h :
  handles_of (bind m k h)
  = handles_of (k (result (m h)) (handles_of (m h))).
Proof.
  unfold bind, result, handles_of. destruct (m h) as [[a h1] t1].
  cbn [fst snd]. destruct (k a h1) as [[b h2] t2]. reflexivity.
Qed.

Lemma actions_bind {A B} (m : M A) (k : A -> M B) h :
  actions (bind m k h)
  = actions (m h) ++ actions (k (result (m h)) (handles_of (m h))).
Proof.
  unfold bind, result, handles_of, actions. destruct (m h) as [[a h1] t1].
  cbn [fst snd]. destruct (k a h1) as [[b h2] t2]. reflexivity.
Qed.

(** ** C6 *)

Lemma execute_command_result rc command verbose h :
  result (execute_command rc command verbose h)
  = if WIFEXITED rc =? 0 then 0 else -1.
Proof.
  unfold execute_command, when, bind, emit, pure, result.
  destruct verbose; reflexivity.
Qed.

(** C6, as stated, fails: after a normal exit with status zero the helper
    returns -1 while the loop goes on. *)
Lemma helper_stops_on_zero_exit : ~ helper_agrees_with_loop.
Proof.
  intros H.
  specialize (H 0 "make"%string false 3 4 (timeout_pass 0)
                (Locals EXIT_SUCCESS 1) initial_handles
                eq_refl eq_refl eq_refl).
  vm_compute in H. destruct H as [H _].
  assert (Hc : Continue = Break) by (apply H; discriminate).
  discriminate Hc.
Qed.

(** Reading a zero result of the helper as its stop signal does not help:
    after a child killed by signal 9 the helper returns 0 and the loop goes
    on. *)
Lemma helper_zero_on_killed_child :
  result (execute_command (wait_status (Signaled 9 false)) "make" false
            initial_handles) = 0
  /\ fst (result (loop_body "make" false 3 4
                    (timeout_pass (wait_status (Signaled 9 false)))
                    (Locals EXIT_SUCCESS 1) initial_handles)) = Continue.
Proof. split; reflexivity. Qed.

(** C6, amended: the helper returns -1 exactly when the child left through a
    normal exit, whatever its status, and 0 otherwise.  For every status
    other than zero this is the decision of the loop: the helper returns
    nonzero exactly when the loop breaks.  At status zero the helper returns
    -1 and the loop continues. *)
Theorem helper_stop_decision rc command verbose signal_fd inotify_fd w l h :
  poll_ret w = 0 -> watch_events l > 0 -> system_ret w = rc ->
  (result (execute_command rc command verbose h) <> 0 <-> WIFEXITED rc <> 0)
  /\ (rc <> 0 ->
      (result (execute_command rc command verbose h) <> 0
       <-> fst (result (loop_body command verbose signal_fd inotify_fd w l h))
           = Break))
  /\ (rc = 0 ->
      result (execute_command rc command verbose h) = -1
      /\ fst (result (loop_body command verbose signal_fd inotify_fd w l h))
         = Continue).
Proof.
  intros Hp Hev Hrc.
  destruct (loop_body_timeout command verbose signal_fd inotify_fd w l h Hp)
    as [Hres _].
  rewrite Hres, on_timeout_result, execute_command_result, Hrc.
  replace (watch_events l >? 0) with true by (symmetry; apply Z.gtb_lt; lia).
  cbn [fst]. split; [|split].
  - destruct (WIFEXITED rc =? 0) eqn:E.
    + apply Z.eqb_eq in E. lia.
    + apply Z.eqb_neq in E. lia.
  - intros Hnz.
    replace (rc =? 0) with false by (symmetry; apply Z.eqb_neq; lia).
    cbn [negb andb].
    destruct (WIFEXITED rc =? 0); cbn [negb].
    + split; [intros H; exfalso; apply H; reflexivity | discriminate].
    + split; [reflexivity | intros _; discriminate].
  - intros ->. split; reflexivity.
Qed.

Lemma helper_stop_decision_witness :
  (result (execute_command (wait_status (Exited 2)) "make" true
             initial_handles) <> 0
   <-> fst (result (loop_body "make" true 3 4
                      (timeout_pass (wait_status (Exited 2)))
                      (Locals EXIT_SUCCESS 1) initial_handles)) = Break)
  /\ result (execute_command 0 "make" true initial_handles) = -1.
Proof.
  split.
  - apply (proj1 (proj2 (helper_stop_decision (wait_status (Exited 2)) "make"
                           true 3 4 (timeout_pass (wait_status (Exited 2)))
                           (Locals EXIT_SUCCESS 1) initial_handles
                           eq_refl eq_refl eq_refl))).
    vm_compute. congruence.
  - apply (proj2 (proj2 (helper_stop_decision 0 "make" true 3 4
                           (timeout_pass 0) (Locals EXIT_SUCCESS 1)
                           initial_handles eq_refl eq_refl eq_refl))).
    reflexivity.
Defined.

(** ** C3 *)

Lemma watch_handler_loop_count buf len verbose fuel :
  forall i events,
  fst (watch_handler_loop fuel buf len verbose i events)
  = fst (watch_handler_loop fuel buf len false i events).
Proof.
  induction fuel as [|fuel IH]; intros i events; cbn [watch_handler_loop];
    [reflexivity|].
  destruct (i <? len); [|reflexivity].
  destruct (Z.land (ev_mask buf i) IN_MODIFY =? 0); [apply IH|].
  specialize (IH (i + (sizeof_inotify_event + ev_len buf i))
                (CInt.incr events)).
  do 2 destruct (watch_handler_loop fuel buf len _ _ _). exact IH.
Qed.

(** The count of a drain depends on the bytes read only. *)
Lemma watch_handler_count r inf verbose h :
  result (watch_handler r inf verbose h)
  = result (watch_handler r 0 false initial_handles).
Proof.
  rewrite !watch_handler_unfold. unfold result. cbn [fst].
  apply watch_handler_loop_count.
Qed.

Lemma loop_body_drain command verbose signal_fd inotify_fd w l h :
  ready_without_signal w ->
  result (loop_body command verbose signal_fd inotify_fd w l h)
  = (Continue,
     if drained_modify w
     then Locals (ret l) (CInt.incr (watch_events l))
     else l).
Proof.
  intros [Hp Hs]. rewrite loop_body_ready by assumption.
  rewrite check_inotify_result. unfold drained_modify.
  rewrite (watch_handler_count (ino_read w) inotify_fd verbose h).
  destruct (_ && _); reflexivity.
Qed.

(** From a pending counter [p], a run of passes in which descriptors are
    ready and no signal arrives leaves the loop waiting, the counter grown by
    the number of drains that found a modify record. *)
Lemma event_loop_counts_drains command verbose signal_fd inotify_fd ws :
  Forall ready_without_signal ws ->
  forall r p h,
  0 <= p -> p + Z.of_nat (List.length ws) <= CInt.INT_MAX ->
  result (event_loop command verbose signal_fd inotify_fd ws (Locals r p) h)
  = Still_waiting (Locals r (p + positive_drains ws)).
Proof.
  unfold positive_drains.
  induction 1 as [|w ws Hw Hws IH]; intros r p h H0 Hmax.
  - cbn. rewrite Z.add_0_r. reflexivity.
  - cbn [event_loop List.length filter] in *. rewrite result_bind.
    rewrite loop_body_drain by exact Hw.
    destruct (drained_modify w); cbn [ret watch_events List.length].
    + rewrite incr_small by (unfold CInt.INT_MIN; lia).
      rewrite IH by lia. do 2 f_equal. lia.
    + rewrite IH by lia. reflexivity.
Qed.

(** C3, as stated, fails: a drain that finds two modify records adds one to
    the pending counter, not two. *)
Lemma pending_counts_drains_not_records : ~ pending_grows_by_count.
Proof.
  intros H.
  specialize (H "make"%string false 3 4 (change_pass [modify_a; modify_b])
                (Locals EXIT_SUCCESS 0) initial_handles).
  vm_compute in H.
  assert (Hc : 1 = 2).
  { apply H; try (split; reflexivity); try reflexivity; discriminate. }
  discriminate Hc.
Qed.

(** C3, amended: a drain that returns a count above zero adds exactly one to
    the pending counter, whatever the count, and a drain that returns zero
    leaves it unchanged; so, counted from a reset, the pending counter is the
    number of drains that found at least one modify record, not the number
    of records. *)
Theorem pending_grows_by_one_per_drain
    command verbose signal_fd inotify_fd w l h :
  ready_without_signal w ->
  Z.land (ino_revents w) POLLIN <> 0 ->
  0 <= watch_events l < CInt.INT_MAX ->
  (result (watch_handler (ino_read w) inotify_fd verbose h) > 0 ->
   watch_events
     (snd (result (loop_body command verbose signal_fd inotify_fd w l h)))
   = watch_events l + 1)
  /\ (result (watch_handler (ino_read w) inotify_fd verbose h) = 0 ->
      snd (result (loop_body command verbose signal_fd inotify_fd w l h))
      = l)
  /\ (forall ws r,
      Forall ready_without_signal ws ->
      Z.of_nat (List.length ws) <= CInt.INT_MAX ->
      result (event_loop command verbose signal_fd inotify_fd ws
                (Locals r 0) h)
      = Still_waiting (Locals r (positive_drains ws))).
Proof.
  intros Hw Hi Hev. rewrite loop_body_drain by exact Hw.
  unfold drained_modify.
  rewrite (watch_handler_count (ino_read w) inotify_fd verbose h).
  replace (Z.land (ino_revents w) POLLIN =? 0) with false
    by (symmetry; apply Z.eqb_neq; exact Hi).
  cbn [negb andb snd]. split; [|split].
  - intros Hc.
    replace (_ >? 0) with true by (symmetry; apply Z.gtb_lt; lia).
    cbn [watch_events]. apply incr_small. unfold CInt.INT_MIN. lia.
  - intros ->. reflexivity.
  - intros ws r Hws Hlen.
    apply (event_loop_counts_drains command verbose signal_fd inotify_fd ws
             Hws r 0 h); lia.
Qed.

Lemma pending_grows_by_one_per_drain_witness :
  watch_events
    (snd (result (loop_body "make" false 3 4
                    (change_pass [modify_a; modify_b])
                    (Locals EXIT_SUCCESS 0) initial_handles)))
  = 0 + 1
  /\ snd (result (loop_body "make" false 3 4 (change_pass [access_self])
                    (Locals EXIT_SUCCESS 3) initial_handles))
     = Locals EXIT_SUCCESS 3
  /\ result (event_loop "make" false 3 4
                [change_pass [modify_a; modify_b]; change_pass [access_self];
                 change_pass [modify_a]]
                (Locals EXIT_SUCCESS 0) initial_handles)
     = Still_waiting (Locals EXIT_SUCCESS 2).
Proof.
  split; [|split].
  - apply (proj1 (pending_grows_by_one_per_drain "make" false 3 4
                    (change_pass [modify_a; modify_b])
                    (Locals EXIT_SUCCESS 0) initial_handles
                    (conj eq_refl eq_refl)
                    ltac:(vm_compute; congruence)
                    ltac:(vm_compute; split; congruence))).
    vm_compute. reflexivity.
  - apply (proj1 (proj2 (pending_grows_by_one_per_drain "make" false 3 4
                           (change_pass [access_self])
                           (Locals EXIT_SUCCESS 3) initial_handles
                           (conj eq_refl eq_refl)
                           ltac:(vm_compute; congruence)
                           ltac:(vm_compute; split; congruence)))).
    vm_compute. reflexivity.
  - apply (proj2 (proj2 (pending_grows_by_one_per_drain "make" false 3 4
                           (change_pass [modify_a])
                           (Locals EXIT_SUCCESS 0) initial_handles
                           (conj eq_refl eq_refl)
                           ltac:(vm_compute; congruence)
                           ltac:(vm_compute; split; congruence)))
             [change_pass [modify_a; modify_b]; change_pass [access_self];
              change_pass [modify_a]] EXIT_SUCCESS).
    + repeat constructor.
    + vm_compute. congruence.
Defined.

(** ** C9 *)

Lemma shutdown_watcher_closed h :
  s_inotify_instance h = -1 -> shutdown_watcher h = (tt, h, []).
Proof.
  intros H. unfold shutdown_watcher, bind, get. rewrite H. reflexivity.
Qed.

Lemma shutdown_watcher_closes h :
  s_inotify_instance (handles_of (shutdown_watcher h)) = -1.
Proof.
  destruct h as [wd inf].
  unfold shutdown_watcher, bind, get, put, emit, pure, handles_of.
  cbn [s_inotify_instance s_watch_instance].
  destruct (inf =? -1) eqn:E; cbn [negb].
  - apply Z.eqb_eq in E. exact E.
  - destruct (wd =? -1); reflexivity.
Qed.

(** C9: tear-down is idempotent.  A second [shutdown_watcher] makes no call
    and leaves the handles as the first left them, so two calls in a row
    leave the state of one; and on a session whose instance is closed, or
    was never registered, the call does nothing at all. *)
Theorem shutdown_idempotent :
  (forall h,
   shutdown_watcher (handles_of (shutdown_watcher h))
   = (tt, handles_of (shutdown_watcher h), []))
  /\ (forall h,
      handles_of ((shutdown_watcher;; shutdown_watcher) h)
      = handles_of (shutdown_watcher h)
      /\ actions ((shutdown_watcher;; shutdown_watcher) h)
         = actions (shutdown_watcher h))
  /\ (forall h,
      s_inotify_instance h = -1 -> shutdown_watcher h = (tt, h, []))
  /\ shutdown_watcher initial_handles = (tt, initial_handles, []).
Proof.
  assert (H2 : forall h,
             shutdown_watcher (handles_of (shutdown_watcher h))
             = (tt, handles_of (shutdown_watcher h), []))
    by (intros h; apply shutdown_watcher_closed, shutdown_watcher_closes).
  split; [exact H2|]. split; [|split].
  - intros h. rewrite handles_of_bind, actions_bind, H2.
    unfold handles_of, actions. cbn [fst snd]. rewrite app_nil_r.
    split; reflexivity.
  - exact shutdown_watcher_closed.
  - reflexivity.
Qed.

Lemma shutdown_idempotent_witness :
  shutdown_watcher (Handles 1 (-1)) = (tt, Handles 1 (-1), [])
  /\ shutdown_watcher (handles_of (shutdown_watcher (Handles 1 4)))
     = (tt, Handles (-1) (-1), []).
Proof.
  split.
  - apply (proj1 (proj2 (proj2 shutdown_idempotent)) (Handles 1 (-1))).
    reflexivity.
  - exact (proj1 shutdown_idempotent (Handles 1 4)).
Defined.

(** ** C5 *)

(** C5: the continuous-mode flag changes nothing: for every answer of the
    operating system, target, command and verbose flag, [watch_for_changes]
    makes the same calls, writes the same output, leaves the same handles
    and returns the same status with the flag true as with the flag false. *)
Theorem continuous_flag_ignored w ws watch_target command verbose h :
  watch_for_changes w ws watch_target command true verbose h
  = watch_for_changes w ws watch_target command false verbose h.
Proof. reflexivity. Qed.

(** ** C2 *)

Lemma is_poll_loop_body command verbose signal_fd inotify_fd w l h :
  existsb is_poll
    (actions (loop_body command verbose signal_fd inotify_fd w l h))
  = true.
Proof.
  destruct (loop_body_poll command verbose signal_fd inotify_fd w l h)
    as (rest & Hact & _).
  rewrite Hact. reflexivity.
Qed.

(** When the watch is refused after the monitor was created,
    [initialise_watcher] still returns the monitor's descriptor and leaves
    the file-scope handles as they were. *)
Lemma initialise_watcher_refused w target verbose h :
  inotify_init_ret w <> -1 -> inotify_add_watch_ret w = -1 ->
  result (initialise_watcher w target verbose h) = inotify_init_ret w
  /\ handles_of (initialise_watcher w target verbose h) = h.
Proof.
  intros Hinit Hadd. unfold initialise_watcher, bind, emit, pure.
  replace (inotify_init_ret w =? -1) with false
    by (symmetry; apply Z.eqb_neq; exact Hinit).
  rewrite Hadd. split; reflexivity.
Qed.

(** So [watch_for_changes] goes on into the loop: with at least one answer
    to a wait, it waits. *)
Lemma registration_failure_enters_loop
    w w1 ws watch_target command continuous verbose h :
  0 <= sigprocmask_ret w -> 0 <= signalfd_ret w ->
  inotify_init_ret w <> -1 -> inotify_add_watch_ret w = -1 ->
  existsb is_poll
    (actions (watch_for_changes w (w1 :: ws) watch_target command continuous
                verbose h))
  = true.
Proof.
  intros Hmask Hfd Hinit Hadd. unfold watch_for_changes.
  rewrite actions_bind.
  assert (Hsig : initialize_signals w h
                 = (signalfd_ret w, h, [Sys_sigprocmask; Sys_signalfd])).
  { unfold initialize_signals, bind, emit, pure.
    replace (sigprocmask_ret w <? 0) with false
      by (symmetry; apply Z.ltb_ge; lia).
    replace (signalfd_ret w <? 0) with false
      by (symmetry; apply Z.ltb_ge; lia).
    reflexivity. }
  rewrite Hsig. unfold result at 1, handles_of at 1. cbn [fst snd].
  replace (signalfd_ret w =? -1) with false
    by (symmetry; apply Z.eqb_neq; lia).
  rewrite actions_bind.
  destruct (initialise_watcher_refused w watch_target verbose h Hinit Hadd)
    as [-> ->].
  replace (inotify_init_ret w =? -1) with false
    by (symmetry; apply Z.eqb_neq; exact Hinit).
  rewrite actions_bind. cbn [event_loop]. rewrite actions_bind.
  rewrite !existsb_app, is_poll_loop_body.
  rewrite !orb_true_r, ?orb_true_l. reflexivity.
Qed.

(** C2 fails on the code.  The watch on a target that does not exist is
    refused; the monitor (descriptor 4) was created.  [watch_for_changes]
    reports the refusal, then waits all the same; when the interrupt signal
    arrives it returns success, and the monitor is never closed. *)
Theorem refused_watch_still_waits :
  watch_for_changes watch_refused [signal_pass SIGINT] "/no/such/file" "make"
    true false initial_handles
  = (Some EXIT_SUCCESS, initial_handles,
     [Sys_sigprocmask; Sys_signalfd; Sys_inotify_init;
      Sys_inotify_add_watch 4 "/no/such/file" (Z.lor IN_MODIFY IN_EXCL_UNLINK);
      Stderr (text ["Failed to create a watch on target: ";
                    "No such file or directory"; nl]%string);
      Sys_poll [3; 4] FD_POLL_MAX 1000;
      Sys_read 3 sizeof_signalfd_siginfo;
      Sys_close 3])
  /\ ~ registration_failure_is_fatal.
Proof.
  split; [vm_compute; reflexivity|].
  intros H.
  specialize (H watch_refused [signal_pass SIGINT] "/no/such/file"%string
                "make"%string true false initial_handles).
  cbv zeta in H.
  destruct H as [Hc _]; [vm_compute; congruence ..|].
  vm_compute in Hc. discriminate Hc.
Qed.

(** The sibling path, for comparison: when the monitor itself is refused,
    [watch_for_changes] closes the signal descriptor and returns failure
    without waiting. *)
Lemma refused_monitor_is_fatal :
  watch_for_changes monitor_refused [signal_pass SIGINT] "/no/such/file"
    "make" true false initial_handles
  = (Some EXIT_FAILURE, initial_handles,
     [Sys_sigprocmask; Sys_signalfd; Sys_inotify_init;
      Stderr (text ["Failed to initalise iNotify: "; "Too many open files";
                    nl]%string);
      Sys_close 3;
      Stderr (text ["Unable to initialise watch handler"; nl]%string)]).
Proof. vm_compute. reflexivity. Qed.

(** ** Whole sessions *)

(** One change, then quiet: the command runs once, with the short timeout
    before it and the long one after; the interrupt signal ends the session
    with success, the watch removed and both descriptors closed. *)
Example session_one_change :
  watch_for_changes (Startup 0 3 4 1 EmptyString)
    [change_pass [modify_a]; timeout_pass 0; timeout_pass 0;
     signal_pass SIGINT]
    "a.txt" "make" true false initial_handles
  = (Some EXIT_SUCCESS, Handles (-1) (-1),
     [Sys_sigprocmask; Sys_signalfd; Sys_inotify_init;
      Sys_inotify_add_watch 4 "a.txt" (Z.lor IN_MODIFY IN_EXCL_UNLINK);
      Sys_poll [3; 4] FD_POLL_MAX 1000;
      Sys_read 4 EVENT_BUF_LEN;
      Sys_poll [3; 4] FD_POLL_MAX 100;
      Sys_system "make";
      Sys_poll [3; 4] FD_POLL_MAX 1000;
      Sys_poll [3; 4] FD_POLL_MAX 1000;
      Sys_read 3 sizeof_signalfd_siginfo;
      Sys_inotify_rm_watch 4 1;
      Sys_close 4;
      Sys_close 3]).
Proof. vm_compute. reflexivity. Qed.

(** A command that exits with status 1 ends the session, with success. *)
Example session_command_fails :
  result (watch_for_changes (Startup 0 3 4 1 EmptyString)
            [change_pass [modify_a]; timeout_pass (wait_status (Exited 1))]
            "a.txt" "make" true false initial_handles)
  = Some EXIT_SUCCESS.
Proof. vm_compute. reflexivity. Qed.

(** A wait that fails ends the session with failure, after tear-down. *)
Example session_poll_fails :
  watch_for_changes (Startup 0 3 4 1 EmptyString)
    [Iteration (-1) 0 0 "Interrupted system call" 0 0 (Read_result 0 []) 0]
    "a.txt" "make" true false initial_handles
  = (Some EXIT_FAILURE, Handles (-1) (-1),
     [Sys_sigprocmask; Sys_signalfd; Sys_inotify_init;
      Sys_inotify_add_watch 4 "a.txt" (Z.lor IN_MODIFY IN_EXCL_UNLINK);
      Sys_poll [3; 4] FD_POLL_MAX 1000;
      Stderr (text ["Couldn't poll: '"; "Interrupted system call"; "'";
                    nl]%string);
      Sys_inotify_rm_watch 4 1;
      Sys_close 4;
      Sys_close 3]).
Proof. vm_compute. reflexivity. Qed.

(** * Further properties of [watch.c] *)

(** ** The drain on any buffer *)

Lemma watch_handler_loop_quiet buf len fuel :
  forall i events,
  snd (watch_handler_loop fuel buf len false i events) = [].
Proof.
  induction fuel as [|fuel IH]; intros i events; cbn [watch_handler_loop];
    [reflexivity|].
  destruct (i <? len); [|reflexivity].
  destruct (Z.land (ev_mask buf i) IN_MODIFY =? 0); [apply IH|].
  specialize (IH (i + (sizeof_inotify_event + ev_len buf i))
                (CInt.incr events)).
  destruct (watch_handler_loop fuel buf len false _ _). exact IH.
Qed.

Lemma watch_handler_loop_only_prints buf len verbose fuel :
  forall i events,
  system_calls (snd (watch_handler_loop fuel buf len verbose i events)) = [].
Proof.
  induction fuel as [|fuel IH]; intros i events; cbn [watch_handler_loop];
    [reflexivity|].
  destruct (i <? len); [|reflexivity].
  destruct (Z.land (ev_mask buf i) IN_MODIFY =? 0); [apply IH|].
  specialize (IH (i + (sizeof_inotify_event + ev_len buf i))
                (CInt.incr events)).
  destruct (watch_handler_loop fuel buf len verbose _ _) as [n out].
  cbn [snd] in *. unfold system_calls in *. rewrite filter_app, IH.
  destruct verbose; reflexivity.
Qed.

(** The verbose flag of a drain changes what is printed and nothing else:
    on any buffer, well formed or not, the count is the same with and without
    it; a drain that is not verbose does nothing but its one read; and a
    verbose drain makes no call but that read. *)
Theorem drain_verbose_only_prints r inf h :
  result (watch_handler r inf true h) = result (watch_handler r inf false h)
  /\ watch_handler r inf false h
     = (result (watch_handler r inf true h), h, [Sys_read inf EVENT_BUF_LEN])
  /\ system_calls (actions (watch_handler r inf true h))
     = [Sys_read inf EVENT_BUF_LEN].
Proof.
  rewrite !watch_handler_unfold. unfold result, actions. cbn [fst snd].
  split; [apply watch_handler_loop_count|]. split.
  - rewrite watch_handler_loop_quiet.
    rewrite <- (watch_handler_loop_count (rd_buf r) (rd_len r) true).
    reflexivity.
  - unfold system_calls. cbn [filter is_output negb].
    fold (system_calls
            (snd (watch_handler_loop (Z.to_nat (rd_len r)) (rd_buf r)
                    (rd_len r) true 0 0))).
    rewrite watch_handler_loop_only_prints. reflexivity.
Qed.

(** Every record takes at least sixteen bytes, so [n] bytes hold at most
    [(n + 15) / 16] of them. *)
Lemma watch_handler_loop_records buf len verbose fuel :
  forall i events,
  CInt.INT_MIN <= events ->
  events + Z.max 0 ((len - i + 15) / 16) <= CInt.INT_MAX ->
  fst (watch_handler_loop fuel buf len verbose i events)
  <= events + Z.max 0 ((len - i + 15) / 16).
Proof.
  induction fuel as [|fuel IH]; intros i events H0 Hmax;
    cbn [watch_handler_loop]; [cbn [fst]; lia|].
  destruct (i <? len) eqn:E; [|cbn [fst]; lia].
  apply Z.ltb_lt in E. pose proof (ev_len_nonneg buf i) as Hl.
  assert (Hs : sizeof_inotify_event = 16) by reflexivity.
  assert (Hstep : 1 + Z.max 0 ((len - (i + (sizeof_inotify_event
                                             + ev_len buf i)) + 15) / 16)
                  <= Z.max 0 ((len - i + 15) / 16)).
  { rewrite Hs. Z.to_euclidean_division_equations. lia. }
  destruct (Z.land (ev_mask buf i) IN_MODIFY =? 0).
  - specialize (IH (i + (sizeof_inotify_event + ev_len buf i)) events).
    lia.
  - specialize (IH (i + (sizeof_inotify_event + ev_len buf i)) (events + 1)).
    rewrite incr_small by lia.
    destruct (watch_handler_loop fuel buf len verbose _ (events + 1)).
    cbn [fst] in *. lia.
Qed.

(** A drain counts at most sixteen events: the buffer of [EVENT_BUF_LEN]
    bytes holds no more records, so the [int] counter cannot overflow. *)
Theorem drain_count_at_most_16 r inf verbose h :
  rd_len r <= EVENT_BUF_LEN ->
  result (watch_handler r inf verbose h) <= 16.
Proof.
  intros Hlen. rewrite watch_handler_unfold. unfold result. cbn [fst].
  assert (Hb : EVENT_BUF_LEN = 256) by reflexivity.
  assert (Hq : Z.max 0 ((rd_len r - 0 + 15) / 16) <= 16)
    by (Z.to_euclidean_division_equations; lia).
  pose proof (watch_handler_loop_records (rd_buf r) (rd_len r) verbose
                (Z.to_nat (rd_len r)) 0 0) as H.
  unfold CInt.INT_MIN, CInt.INT_MAX in H. lia.
Qed.

Lemma drain_count_at_most_16_witness :
  result (watch_handler
            (read_of [access_self; modify_a; modify_b; access_self] []) 4
            false initial_handles) <= 16.
Proof.
  apply (drain_count_at_most_16
           (read_of [access_self; modify_a; modify_b; access_self] []) 4
           false initial_handles).
  vm_compute. congruence.
Defined.

(** ** Records and their bytes *)

Lemma le32_le32_bytes_wrap x rest :
  le32 (le32_bytes x ++ rest) 0 = x mod 2 ^ 32.
Proof.
  unfold le32_bytes. cbn [app]. rewrite le32_cons4, !Z_of_byte_of_Z.
  change (2 ^ 8) with 256. change (2 ^ 16) with 65536.
  change (2 ^ 24) with 16777216. change (2 ^ 32) with 4294967296.
  Z.to_euclidean_division_equations. lia.
Qed.

Lemma ev_wd_encode e :
  CInt.INT_MIN <= wd e <= CInt.INT_MAX -> ev_wd (encode e) 0 = wd e.
Proof.
  intros H. unfold ev_wd, encode. rewrite le32_le32_bytes_wrap.
  unfold CInt.to_int, CInt.INT_MIN, CInt.INT_MAX in *.
  change (2 ^ 31) with 2147483648 in *. change (2 ^ 32) with 4294967296.
  Z.to_euclidean_division_equations. lia.
Qed.

Lemma ev_cookie_encode e :
  0 <= cookie e < 2 ^ 32 -> ev_cookie (encode e) 0 = cookie e.
Proof.
  intros H. unfold ev_cookie, encode. rewrite app_assoc.
  change (0 + 8)
    with (Z.of_nat (List.length (le32_bytes (wd e) ++ le32_bytes (mask e)))
          + 0).
  rewrite le32_app_r by lia. apply le32_le32_bytes, H.
Qed.

Lemma ev_name_encode e :
  ev_name (encode e) 0 = c_string (name e).
Proof.
  unfold ev_name. pose proof (skipn_header [] e []) as H.
  cbn [List.length app Z.of_nat] in H. rewrite !app_nil_r in H.
  rewrite H. reflexivity.
Qed.

(** What the kernel writes, the code reads back: wherever a well-formed
    record lies in the buffer, the four header fields decode to the values
    encoded, and a name that is present decodes to its characters up to the
    first NUL, whatever bytes follow the record. *)
Theorem record_round_trip pre rest e :
  well_formed e ->
  ev_wd (pre ++ encode e ++ rest) (Z.of_nat (List.length pre)) = wd e
  /\ ev_mask (pre ++ encode e ++ rest) (Z.of_nat (List.length pre)) = mask e
  /\ ev_cookie (pre ++ encode e ++ rest) (Z.of_nat (List.length pre))
     = cookie e
  /\ ev_len (pre ++ encode e ++ rest) (Z.of_nat (List.length pre)) = len e
  /\ (len e <> 0 ->
      ev_name (pre ++ encode e ++ rest) (Z.of_nat (List.length pre))
      = c_string (name e)).
Proof.
  intros He. pose proof He as (Hwd & Hmask & Hcookie & Hlen & Hname).
  rewrite ev_wd_local, ev_cookie_local.
  rewrite ev_mask_decoded, ev_len_decoded by exact He.
  rewrite ev_wd_encode, ev_cookie_encode by assumption.
  repeat split. intros Hn.
  rewrite ev_name_local by assumption. apply ev_name_encode.
Qed.

Lemma record_round_trip_witness :
  ev_wd (encode access_self ++ encode moved_from_a ++ encode modify_b) 16 = 1
  /\ ev_mask (encode access_self ++ encode moved_from_a ++ encode modify_b) 16
     = IN_MOVED_FROM
  /\ ev_cookie (encode access_self ++ encode moved_from_a ++ encode modify_b)
       16 = 7
  /\ ev_len (encode access_self ++ encode moved_from_a ++ encode modify_b) 16
     = 16
  /\ (len moved_from_a <> 0 ->
      ev_name (encode access_self ++ encode moved_from_a ++ encode modify_b)
        16 = bytes_of_string "a").
Proof.
  apply (record_round_trip (encode access_self) (encode modify_b)
           moved_from_a).
  apply well_formedb_sound. vm_compute. reflexivity.
Defined.

(** ** One pass, in full *)

Lemma result_triple {A} (a : A) h t : result (a, h, t) = a.
Proof. reflexivity. Qed.

Lemma handles_of_triple {A} (a : A) h t : handles_of (a, h, t) = h.
Proof. reflexivity. Qed.

Lemma actions_triple {A} (a : A) h t : actions (a, h, t) = t.
Proof. reflexivity. Qed.

Lemma on_timeout_handles command verbose w l h :
  handles_of (on_timeout command verbose w l h) = h.
Proof.
  unfold on_timeout, when, bind, emit, pure, handles_of.
  destruct (watch_events l >? 0); [|reflexivity].
  destruct verbose, (system_ret w =? 0), (WIFEXITED (system_ret w) =? 0);
    reflexivity.
Qed.

Lemma check_signal_handles verbose signal_fd w l h :
  handles_of (check_signal verbose signal_fd w l h) = h.
Proof.
  unfold check_signal, when, bind, emit, pure, handles_of.
  destruct (Z.land (sig_revents w) POLLIN =? 0),
    (sig_read_ret w =? sizeof_signalfd_siginfo),
    ((ssi_signo w =? SIGINT) || (ssi_signo w =? SIGTERM)), verbose;
    reflexivity.
Qed.

Lemma check_inotify_handles verbose inotify_fd w l h :
  handles_of (check_inotify verbose inotify_fd w l h) = h.
Proof.
  unfold check_inotify.
  destruct (Z.land (ino_revents w) POLLIN =? 0); cbn [negb]; [reflexivity|].
  rewrite handles_of_bind, watch_handler_unfold.
  unfold result, handles_of. cbn [fst snd].
  destruct (_ >? 0); reflexivity.
Qed.

(** A pass through the loop leaves the file-scope handles alone. *)
Lemma loop_body_handles command verbose signal_fd inotify_fd w l h :
  handles_of (loop_body command verbose signal_fd inotify_fd w l h) = h.
Proof.
  unfold loop_body. rewrite handles_of_bind.
  change (handles_of (emit _ h)) with h.
  destruct (poll_ret w =? 0); [apply on_timeout_handles|].
  destruct (poll_ret w <? 0); [reflexivity|].
  destruct (poll_ret w >? 0); [|reflexivity].
  rewrite handles_of_bind, check_signal_handles.
  destruct (result (check_signal verbose signal_fd w l h)) as [[|] l'];
    [apply check_inotify_handles | reflexivity].
Qed.

Lemma event_loop_cons command verbose signal_fd inotify_fd w ws l h :
  event_loop command verbose signal_fd inotify_fd (w :: ws) l h
  = match result (loop_body command verbose signal_fd inotify_fd w l h) with
    | (Break, l') =>
        (Left_loop l', h,
         actions (loop_body command verbose signal_fd inotify_fd w l h))
    | (Continue, l') =>
        (result (event_loop command verbose signal_fd inotify_fd ws l' h),
         handles_of (event_loop command verbose signal_fd inotify_fd ws l' h),
         actions (loop_body command verbose signal_fd inotify_fd w l h)
         ++ actions (event_loop command verbose signal_fd inotify_fd ws l' h))
    end.
Proof.
  cbn [event_loop]. unfold bind.
  pose proof (loop_body_handles command verbose signal_fd inotify_fd w l h)
    as Hh.
  destruct (loop_body command verbose signal_fd inotify_fd w l h)
    as [[[c l'] h1] t1].
  unfold handles_of, result, actions in *. cbn [fst snd] in *. subst h1.
  destruct c.
  - destruct (event_loop command verbose signal_fd inotify_fd ws l' h)
      as [[r h2] t2].
    reflexivity.
  - unfold pure. rewrite app_nil_r. reflexivity.
Qed.

(** The loop leaves the handles alone. *)
Lemma event_loop_handles command verbose signal_fd inotify_fd ws :
  forall l h,
  handles_of (event_loop command verbose signal_fd inotify_fd ws l h) = h.
Proof.
  induction ws as [|w ws IH]; intros l h; [reflexivity|].
  rewrite event_loop_cons.
  destruct (result (loop_body command verbose signal_fd inotify_fd w l h))
    as [[|] l']; [|reflexivity].
  unfold handles_of at 1. cbn [fst snd]. apply IH.
Qed.

(** The passes after a [break] are never made. *)
Lemma event_loop_app_left command verbose signal_fd inotify_fd pre post :
  forall l h l',
  result (event_loop command verbose signal_fd inotify_fd pre l h)
  = Left_loop l' ->
  event_loop command verbose signal_fd inotify_fd (pre ++ post) l h
  = event_loop command verbose signal_fd inotify_fd pre l h.
Proof.
  induction pre as [|w pre IH]; intros l h l' H; [discriminate H|].
  cbn [app]. rewrite !event_loop_cons in *.
  destruct (result (loop_body command verbose signal_fd inotify_fd w l h))
    as [[|] l1]; [|reflexivity].
  unfold result at 1 in H. cbn [fst] in H.
  rewrite (IH l1 h l' H). reflexivity.
Qed.

(** While the loop is waiting, further passes go on from where it stands. *)
Lemma event_loop_app_waiting command verbose signal_fd inotify_fd pre post :
  forall l h l',
  result (event_loop command verbose signal_fd inotify_fd pre l h)
  = Still_waiting l' ->
  event_loop command verbose signal_fd inotify_fd (pre ++ post) l h
  = (result (event_loop command verbose signal_fd inotify_fd post l' h),
     h,
     actions (event_loop command verbose signal_fd inotify_fd pre l h)
     ++ actions (event_loop command verbose signal_fd inotify_fd post l' h)).
Proof.
  induction pre as [|w pre IH]; intros l h l' H.
  - injection H as <-. cbn [app].
    pose proof (event_loop_handles command verbose signal_fd inotify_fd post
                  l h) as Hh.
    destruct (event_loop command verbose signal_fd inotify_fd post l h)
      as [[r h2] t2].
    unfold handles_of in Hh. cbn [fst snd] in Hh. subst h2. reflexivity.
  - cbn [app]. rewrite !event_loop_cons in *.
    destruct (result (loop_body command verbose signal_fd inotify_fd w l h))
      as [[|] l1]; [|discriminate H].
    unfold result at 1 in H. cbn [fst] in H.
    rewrite (IH l1 h l' H).
    rewrite !result_triple, !handles_of_triple, !actions_triple.
    rewrite app_assoc. reflexivity.
Qed.

Lemma check_signal_result verbose signal_fd w l h :
  result (check_signal verbose signal_fd w l h)
  = if negb (Z.land (sig_revents w) POLLIN =? 0) then
      if negb (sig_read_ret w =? sizeof_signalfd_siginfo)
      then (Break, Locals EXIT_FAILURE (watch_events l))
      else if (ssi_signo w =? SIGINT) || (ssi_signo w =? SIGTERM)
           then (Break, l)
           else (Continue, l)
    else (Continue, l).
Proof.
  unfold check_signal, when, bind, emit, pure, result.
  destruct (Z.land (sig_revents w) POLLIN =? 0),
    (sig_read_ret w =? sizeof_signalfd_siginfo),
    ((ssi_signo w =? SIGINT) || (ssi_signo w =? SIGTERM)), verbose;
    reflexivity.
Qed.

Lemma check_signal_actions verbose signal_fd w l h :
  system_calls (actions (check_signal verbose signal_fd w l h))
  = if negb (Z.land (sig_revents w) POLLIN =? 0)
    then [Sys_read signal_fd sizeof_signalfd_siginfo]
    else [].
Proof.
  unfold check_signal, when, bind, emit, pure, actions.
  destruct (Z.land (sig_revents w) POLLIN =? 0),
    (sig_read_ret w =? sizeof_signalfd_siginfo),
    ((ssi_signo w =? SIGINT) || (ssi_signo w =? SIGTERM)), verbose;
    reflexivity.
Qed.

Lemma check_inotify_actions verbose inotify_fd w l h :
  system_calls (actions (check_inotify verbose inotify_fd w l h))
  = if negb (Z.land (ino_revents w) POLLIN =? 0)
    then [Sys_read inotify_fd EVENT_BUF_LEN]
    else [].
Proof.
  unfold check_inotify.
  destruct (Z.land (ino_revents w) POLLIN =? 0); cbn [negb]; [reflexivity|].
  rewrite actions_bind, watch_handler_unfold.
  rewrite result_triple, handles_of_triple, actions_triple.
  unfold system_calls. rewrite filter_app. cbn [filter is_output negb].
  fold (system_calls
          (snd (watch_handler_loop (Z.to_nat (rd_len (ino_read w)))
                  (rd_buf (ino_read w)) (rd_len (ino_read w)) verbose 0 0))).
  rewrite watch_handler_loop_only_prints.
  destruct (_ >? 0); reflexivity.
Qed.

Lemma on_timeout_system_calls command verbose w l h :
  system_calls (actions (on_timeout command verbose w l h))
  = if watch_events l >? 0 then [Sys_system command] else [].
Proof.
  unfold on_timeout, when, bind, emit, pure, actions.
  destruct (watch_events l >? 0); [|reflexivity].
  destruct verbose, (system_ret w =? 0), (WIFEXITED (system_ret w) =? 0);
    reflexivity.
Qed.

(** The result of a pass, branch by branch. *)
Lemma loop_body_result command verbose signal_fd inotify_fd w l h :
  result (loop_body command verbose signal_fd inotify_fd w l h)
  = if poll_ret w =? 0 then result (on_timeout command verbose w l h)
    else if poll_ret w <? 0
    then (Break, Locals EXIT_FAILURE (watch_events l))
    else if poll_ret w >? 0 then
      match result (check_signal verbose signal_fd w l h) with
      | (Break, l') => (Break, l')
      | (Continue, l') => result (check_inotify verbose inotify_fd w l' h)
      end
    else (Continue, l).
Proof.
  unfold loop_body. rewrite result_bind.
  change (handles_of (emit _ h)) with h.
  destruct (poll_ret w =? 0); [reflexivity|].
  destruct (poll_ret w <? 0); [reflexivity|].
  destruct (poll_ret w >? 0); [|reflexivity].
  rewrite result_bind, check_signal_handles.
  destruct (result (check_signal verbose signal_fd w l h)) as [[|] l'];
    reflexivity.
Qed.

(** The system calls of a pass, branch by branch. *)
Lemma loop_body_system_calls command verbose signal_fd inotify_fd w l h :
  system_calls (actions (loop_body command verbose signal_fd inotify_fd w l h))
  = Sys_poll [signal_fd; inotify_fd] FD_POLL_MAX
      (if negb (watch_events l =? 0) then 100 else 1000)
    :: (if poll_ret w =? 0 then
          if watch_events l >? 0 then [Sys_system command] else []
        else if poll_ret w <? 0 then []
        else if poll_ret w >? 0 then
          (if negb (Z.land (sig_revents w) POLLIN =? 0)
           then [Sys_read signal_fd sizeof_signalfd_siginfo] else [])
          ++ match result (check_signal verbose signal_fd w l h) with
             | (Break, _) => []
             | (Continue, _) =>
                 if negb (Z.land (ino_revents w) POLLIN =? 0)
                 then [Sys_read inotify_fd EVENT_BUF_LEN] else []
             end
        else []).
Proof.
  unfold loop_body. rewrite actions_bind.
  change (handles_of (emit _ h)) with h.
  change (actions (emit ?a h)) with [a].
  unfold system_calls at 1. cbn [app filter is_output negb]. f_equal.
  match goal with |- filter _ ?t = _ => fold (system_calls t) end.
  destruct (poll_ret w =? 0); [apply on_timeout_system_calls|].
  destruct (poll_ret w <? 0); [reflexivity|].
  destruct (poll_ret w >? 0); [|reflexivity].
  rewrite actions_bind, check_signal_handles.
  unfold system_calls. rewrite filter_app.
  match goal with
  | |- filter _ ?t ++ filter _ ?u = _ =>
      fold (system_calls t); fold (system_calls u)
  end.
  rewrite check_signal_actions. f_equal.
  destruct (result (check_signal verbose signal_fd w l h)) as [[|] l'];
    [apply check_inotify_actions | reflexivity].
Qed.

(** ** Counting invocations *)

Lemma filter_system_calls t :
  filter is_system (system_calls t) = filter is_system t.
Proof.
  unfold system_calls. induction t as [|a t IH]; [reflexivity|].
  cbn [filter]. destruct a; cbn [is_output negb filter is_system];
    rewrite IH; reflexivity.
Qed.

Lemma count_system_app t u :
  count_system (t ++ u) = count_system t + count_system u.
Proof.
  unfold count_system. rewrite filter_app, length_app. lia.
Qed.

Lemma count_system_nonneg t : 0 <= count_system t.
Proof. unfold count_system. lia. Qed.

(** A pass runs the command once or not at all. *)
Lemma loop_body_count_system command verbose signal_fd inotify_fd w l h :
  count_system
    (actions (loop_body command verbose signal_fd inotify_fd w l h))
  = if (poll_ret w =? 0) && (watch_events l >? 0) then 1 else 0.
Proof.
  unfold count_system. rewrite <- filter_system_calls.
  rewrite loop_body_system_calls. cbn [filter is_system].
  destruct (poll_ret w =? 0); cbn [andb].
  - destruct (watch_events l >? 0); reflexivity.
  - destruct (poll_ret w <? 0); [reflexivity|].
    destruct (poll_ret w >? 0); [|reflexivity].
    destruct (result (check_signal verbose signal_fd w l h)) as [[|] l'];
      destruct (negb (Z.land (sig_revents w) POLLIN =? 0)),
        (negb (Z.land (ino_revents w) POLLIN =? 0)); reflexivity.
Qed.

(** The pending counter after a pass: reset by an invocation, or as it
    was, or one more after a drain that found a modify record. *)
Lemma loop_body_pending command verbose signal_fd inotify_fd w l h :
  let p' :=
    watch_events
      (snd (result (loop_body command verbose signal_fd inotify_fd w l h))) in
  (p' = 0 /\ poll_ret w = 0 /\ watch_events l > 0)
  \/ p' = watch_events l
  \/ (p' = CInt.incr (watch_events l) /\ drained_modify w = true).
Proof.
  cbv zeta. rewrite loop_body_result.
  destruct (poll_ret w =? 0) eqn:E0.
  - rewrite on_timeout_result. apply Z.eqb_eq in E0.
    destruct (watch_events l >? 0) eqn:Ep; cbn [snd watch_events].
    + left. apply Z.gtb_lt in Ep. lia.
    + right. left. reflexivity.
  - destruct (poll_ret w <? 0); [right; left; reflexivity|].
    destruct (poll_ret w >? 0); [|right; left; reflexivity].
    rewrite check_signal_result.
    destruct (negb (Z.land (sig_revents w) POLLIN =? 0)) eqn:Es.
    + destruct (negb (sig_read_ret w =? sizeof_signalfd_siginfo));
        [right; left; reflexivity|].
      destruct ((ssi_signo w =? SIGINT) || (ssi_signo w =? SIGTERM));
        [right; left; reflexivity|].
      rewrite check_inotify_result. unfold drained_modify.
      rewrite (watch_handler_count (ino_read w) inotify_fd verbose h).
      destruct (_ && _); cbn [snd watch_events]; auto.
    + rewrite check_inotify_result. unfold drained_modify.
      rewrite (watch_handler_count (ino_read w) inotify_fd verbose h).
      destruct (_ && _); cbn [snd watch_events]; auto.
Qed.

(** ** Idle stability *)

(** As long as no drain finds a modify record the command is never run,
    whatever else happens (timeouts, signals, failed waits, drains of other
    kinds), and no event is pending when the passes are used up. *)
Theorem idle_never_runs_command command verbose signal_fd inotify_fd ws :
  Forall (fun w => drained_modify w = false) ws ->
  forall r h,
  count_system
    (actions (event_loop command verbose signal_fd inotify_fd ws
                (Locals r 0) h)) = 0
  /\ watch_events
       (locals_of
          (result (event_loop command verbose signal_fd inotify_fd ws
                     (Locals r 0) h))) = 0.
Proof.
  induction 1 as [|w ws Hw Hws IH]; intros r h; [split; reflexivity|].
  rewrite event_loop_cons.
  pose proof (loop_body_pending command verbose signal_fd inotify_fd w
                (Locals r 0) h) as Hp.
  pose proof (loop_body_count_system command verbose signal_fd inotify_fd w
                (Locals r 0) h) as Hc.
  cbv zeta in Hp. cbn [watch_events] in Hp, Hc.
  rewrite andb_false_r in Hc.
  assert (Hp0 : watch_events
                  (snd (result (loop_body command verbose signal_fd
                                  inotify_fd w (Locals r 0) h))) = 0).
  { destruct Hp as [(? & _) | [? | (_ & Hd)]]; [assumption | assumption|].
    rewrite Hw in Hd. discriminate Hd. }
  destruct (result (loop_body command verbose signal_fd inotify_fd w
                      (Locals r 0) h)) as [[|] [r' p']];
    cbn [snd watch_events] in Hp0; subst p';
    rewrite result_triple, actions_triple.
  - rewrite count_system_app, Hc. destruct (IH r' h) as [-> ->].
    split; reflexivity.
  - split; [exact Hc | reflexivity].
Qed.

Lemma idle_never_runs_command_witness :
  count_system
    (actions (event_loop "make" true 3 4
                [timeout_pass 0; change_pass [access_self];
                 signal_pass 10; timeout_pass 0]
                (Locals EXIT_SUCCESS 0) initial_handles)) = 0
  /\ watch_events
       (locals_of
          (result (event_loop "make" true 3 4
                     [timeout_pass 0; change_pass [access_self];
                      signal_pass 10; timeout_pass 0]
                     (Locals EXIT_SUCCESS 0) initial_handles))) = 0.
Proof.
  apply (idle_never_runs_command "make" true 3 4
           [timeout_pass 0; change_pass [access_self]; signal_pass 10;
            timeout_pass 0]).
  repeat constructor.
Defined.

(** ** Coalescing *)

Lemma event_loop_ready_no_system command verbose signal_fd inotify_fd ws :
  Forall ready_without_signal ws ->
  forall l h,
  count_system
    (actions (event_loop command verbose signal_fd inotify_fd ws l h)) = 0.
Proof.
  induction 1 as [|w ws [Hw _] Hws IH]; intros l h; [reflexivity|].
  rewrite event_loop_cons.
  pose proof (loop_body_count_system command verbose signal_fd inotify_fd w
                l h) as Hc.
  replace (poll_ret w =? 0) with false in Hc
    by (symmetry; apply Z.eqb_neq; lia).
  cbn [andb] in Hc.
  destruct (result (loop_body command verbose signal_fd inotify_fd w l h))
    as [[|] l']; rewrite actions_triple; [|exact Hc].
  rewrite count_system_app, Hc, IH. reflexivity.
Qed.

(** A burst is answered once: after any number of passes in which
    descriptors were ready, at least one of them with a drain that found a
    modify record, the first wait that times out runs the command exactly
    once and resets the pending counter. *)
Theorem burst_runs_command_once
    command verbose signal_fd inotify_fd ws wt r h :
  Forall ready_without_signal ws ->
  positive_drains ws > 0 ->
  Z.of_nat (List.length ws) <= CInt.INT_MAX ->
  poll_ret wt = 0 ->
  count_system
    (actions (event_loop command verbose signal_fd inotify_fd (ws ++ [wt])
                (Locals r 0) h)) = 1
  /\ watch_events
       (locals_of
          (result (event_loop command verbose signal_fd inotify_fd
                     (ws ++ [wt]) (Locals r 0) h))) = 0.
Proof.
  intros Hws Hpos Hlen Hwt.
  pose proof (event_loop_counts_drains command verbose signal_fd inotify_fd
                ws Hws r 0 h) as Hrun.
  cbn [Z.add] in Hrun. specialize (Hrun ltac:(lia) ltac:(lia)).
  rewrite (event_loop_app_waiting command verbose signal_fd inotify_fd ws
             [wt] _ _ _ Hrun).
  rewrite result_triple, actions_triple, count_system_app.
  rewrite (event_loop_ready_no_system command verbose signal_fd inotify_fd
             ws Hws).
  rewrite event_loop_cons.
  pose proof (loop_body_count_system command verbose signal_fd inotify_fd wt
                (Locals r (positive_drains ws)) h) as Hc.
  pose proof (loop_body_timeout command verbose signal_fd inotify_fd wt
                (Locals r (positive_drains ws)) h Hwt) as [Hres _].
  rewrite on_timeout_result in Hres. cbn [watch_events ret] in Hc, Hres.
  rewrite Hwt in Hc.
  replace (positive_drains ws >? 0) with true in Hc, Hres
    by (symmetry; apply Z.gtb_lt; lia).
  cbn [Z.eqb andb] in Hc. rewrite Hres.
  destruct (negb (system_ret wt =? 0)
            && negb (WIFEXITED (system_ret wt) =? 0));
    rewrite result_triple, actions_triple; cbn [locals_of watch_events].
  - rewrite Hc. split; reflexivity.
  - cbn [event_loop]. unfold pure. rewrite result_triple, actions_triple.
    rewrite count_system_app, Hc. split; reflexivity.
Qed.

Lemma burst_runs_command_once_witness :
  count_system
    (actions (event_loop "make" false 3 4
                ([change_pass [modify_a]; change_pass [modify_a; modify_b];
                  change_pass [modify_b]] ++ [timeout_pass 0])
                (Locals EXIT_SUCCESS 0) initial_handles)) = 1
  /\ watch_events
       (locals_of
          (result (event_loop "make" false 3 4
                     ([change_pass [modify_a];
                       change_pass [modify_a; modify_b];
                       change_pass [modify_b]] ++ [timeout_pass 0])
                     (Locals EXIT_SUCCESS 0) initial_handles))) = 0.
Proof.
  apply (burst_runs_command_once "make" false 3 4
           [change_pass [modify_a]; change_pass [modify_a; modify_b];
            change_pass [modify_b]] (timeout_pass 0) EXIT_SUCCESS
           initial_handles).
  - repeat constructor.
  - vm_compute. reflexivity.
  - vm_compute. congruence.
  - reflexivity.
Defined.

(** ** The pending counter and the status *)

(** The pending counter is never negative and grows by at most one a pass:
    after [n] passes from [p] it lies between 0 and [p + n]. *)
Theorem pending_counter_bounds command verbose signal_fd inotify_fd ws :
  forall r p h,
  0 <= p -> p + Z.of_nat (List.length ws) <= CInt.INT_MAX ->
  0 <= watch_events
         (locals_of
            (result (event_loop command verbose signal_fd inotify_fd ws
                       (Locals r p) h)))
    <= p + Z.of_nat (List.length ws).
Proof.
  induction ws as [|w ws IH]; intros r p h H0 Hmax.
  - cbn. lia.
  - cbn [List.length] in Hmax. rewrite event_loop_cons.
    pose proof (loop_body_pending command verbose signal_fd inotify_fd w
                  (Locals r p) h) as Hp.
    cbv zeta in Hp. cbn [watch_events] in Hp.
    rewrite incr_small in Hp by (unfold CInt.INT_MIN; lia).
    destruct (result (loop_body command verbose signal_fd inotify_fd w
                        (Locals r p) h)) as [[|] [r' p']];
      cbn [snd watch_events] in Hp; rewrite result_triple.
    + specialize (IH r' p' h). cbn [List.length].
      unfold CInt.INT_MAX in *. lia.
    + cbn [locals_of watch_events List.length]. lia.
Qed.

Lemma pending_counter_bounds_witness :
  0 <= watch_events
         (locals_of
            (result (event_loop "make" false 3 4
                       [change_pass [modify_a]; change_pass [modify_b]]
                       (Locals EXIT_SUCCESS 5) initial_handles)))
    <= 5 + 2.
Proof.
  apply (pending_counter_bounds "make" false 3 4
           [change_pass [modify_a]; change_pass [modify_b]] EXIT_SUCCESS 5
           initial_handles); vm_compute; congruence.
Defined.

Lemma loop_body_ret command verbose signal_fd inotify_fd w l h :
  let r := result (loop_body command verbose signal_fd inotify_fd w l h) in
  (ret (snd r) = ret l /\ (fst r = Break -> fatal_pass w = false))
  \/ (ret (snd r) = EXIT_FAILURE /\ fst r = Break /\ fatal_pass w = true).
Proof.
  cbv zeta. rewrite loop_body_result. unfold fatal_pass.
  destruct (poll_ret w =? 0) eqn:E0.
  - apply Z.eqb_eq in E0. rewrite E0. cbn [Z.ltb Z.gtb Z.compare andb orb].
    rewrite on_timeout_result. left.
    destruct (watch_events l >? 0); cbn [snd ret]; auto.
  - destruct (poll_ret w <? 0) eqn:E1; cbn [orb].
    + right. cbn [fst snd ret]. auto.
    + destruct (poll_ret w >? 0); cbn [andb]; [|left; cbn; auto].
      rewrite check_signal_result.
      destruct (negb (Z.land (sig_revents w) POLLIN =? 0)); cbn [andb].
      * destruct (negb (sig_read_ret w =? sizeof_signalfd_siginfo)).
        -- right. cbn [fst snd ret]. auto.
        -- left.
           destruct ((ssi_signo w =? SIGINT) || (ssi_signo w =? SIGTERM));
             [cbn; auto|].
           rewrite check_inotify_result.
           destruct (_ && _); cbn; auto.
      * left. rewrite check_inotify_result. destruct (_ && _); cbn; auto.
Qed.

(** The status is a failure only through a fatal pass: while the loop is
    waiting the status is still success, and when it has left the loop the
    status is success, or it is failure and one of the passes was a wait
    that failed or a short read of the signal descriptor. *)
Theorem loop_status command verbose signal_fd inotify_fd ws :
  forall p h,
  match result (event_loop command verbose signal_fd inotify_fd ws
                  (Locals EXIT_SUCCESS p) h) with
  | Still_waiting l => ret l = EXIT_SUCCESS
  | Left_loop l =>
      ret l = EXIT_SUCCESS
      \/ (ret l = EXIT_FAILURE /\ existsb fatal_pass ws = true)
  end.
Proof.
  induction ws as [|w ws IH]; intros p h; [reflexivity|].
  rewrite event_loop_cons.
  pose proof (loop_body_ret command verbose signal_fd inotify_fd w
                (Locals EXIT_SUCCESS p) h) as Hr.
  cbv zeta in Hr. cbn [ret] in Hr.
  destruct (result (loop_body command verbose signal_fd inotify_fd w
                      (Locals EXIT_SUCCESS p) h)) as [[|] [r' p']];
    cbn [fst snd ret] in Hr; rewrite result_triple.
  - destruct Hr as [[-> _] | (_ & Hc & _)]; [|discriminate Hc].
    specialize (IH p' h).
    destruct (result (event_loop command verbose signal_fd inotify_fd ws
                        (Locals EXIT_SUCCESS p') h)) as [l | l];
      [|exact IH].
    destruct IH as [IH | [IH1 IH2]]; [left; exact IH|].
    right. split; [exact IH1|]. cbn [existsb]. rewrite IH2.
    apply orb_true_r.
  - cbn [ret]. destruct Hr as [[-> _] | (-> & _ & Hf)]; [left; reflexivity|].
    right. split; [reflexivity|]. cbn [existsb]. rewrite Hf. reflexivity.
Qed.

(** ** Start-up and tear-down *)

Lemma existsb_system_calls (P : action -> bool) t :
  (forall a, is_output a = true -> P a = false) ->
  existsb P (system_calls t) = existsb P t.
Proof.
  intros HP. unfold system_calls. induction t as [|a t IH]; [reflexivity|].
  cbn [filter existsb]. destruct (is_output a) eqn:E; cbn [negb existsb].
  - rewrite (HP a E), IH. reflexivity.
  - rewrite IH. reflexivity.
Qed.

Lemma is_release_output a : is_output a = true -> is_release a = false.
Proof. destruct a; intros H; try discriminate H; reflexivity. Qed.

Lemma loop_body_no_release command verbose signal_fd inotify_fd w l h :
  existsb is_release
    (actions (loop_body command verbose signal_fd inotify_fd w l h)) = false.
Proof.
  rewrite <- (existsb_system_calls is_release _ is_release_output).
  rewrite loop_body_system_calls. cbn [existsb is_release orb].
  destruct (poll_ret w =? 0); [destruct (watch_events l >? 0); reflexivity|].
  destruct (poll_ret w <? 0); [reflexivity|].
  destruct (poll_ret w >? 0); [|reflexivity].
  destruct (result (check_signal verbose signal_fd w l h)) as [[|] l'];
    destruct (negb (Z.land (sig_revents w) POLLIN =? 0)),
      (negb (Z.land (ino_revents w) POLLIN =? 0)); reflexivity.
Qed.

(** The loop closes nothing and removes no watch. *)
Lemma event_loop_no_release command verbose signal_fd inotify_fd ws :
  forall l h,
  existsb is_release
    (actions (event_loop command verbose signal_fd inotify_fd ws l h))
  = false.
Proof.
  induction ws as [|w ws IH]; intros l h; [reflexivity|].
  rewrite event_loop_cons.
  pose proof (loop_body_no_release command verbose signal_fd inotify_fd w l h)
    as Hb.
  destruct (result (loop_body command verbose signal_fd inotify_fd w l h))
    as [[|] l']; rewrite actions_triple; [|exact Hb].
  rewrite existsb_app, Hb, IH. reflexivity.
Qed.

Lemma initialize_signals_ok w h :
  0 <= sigprocmask_ret w -> 0 <= signalfd_ret w ->
  initialize_signals w h
  = (signalfd_ret w, h, [Sys_sigprocmask; Sys_signalfd]).
Proof.
  intros Hm Hf. unfold initialize_signals, bind, emit, pure.
  replace (sigprocmask_ret w <? 0) with false
    by (symmetry; apply Z.ltb_ge; lia).
  replace (signalfd_ret w <? 0) with false
    by (symmetry; apply Z.ltb_ge; lia).
  reflexivity.
Qed.

Lemma initialise_watcher_ok w target verbose h :
  inotify_init_ret w <> -1 -> inotify_add_watch_ret w <> -1 ->
  initialise_watcher w target verbose h
  = (inotify_init_ret w,
     Handles (inotify_add_watch_ret w) (inotify_init_ret w),
     [Sys_inotify_init;
      Sys_inotify_add_watch (inotify_init_ret w) target
        (Z.lor IN_MODIFY IN_EXCL_UNLINK)]
     ++ (if verbose
         then [Stdout (text ["Begun monitoring of '"; target; "' - ";
                             fmt_d (inotify_add_watch_ret w); nl]%string)]
         else [])).
Proof.
  intros Hi Ha. unfold initialise_watcher, when, bind, emit, pure, put.
  replace (inotify_init_ret w =? -1) with false
    by (symmetry; apply Z.eqb_neq; exact Hi).
  replace (inotify_add_watch_ret w =? -1) with false
    by (symmetry; apply Z.eqb_neq; exact Ha).
  destruct verbose; reflexivity.
Qed.

Lemma shutdown_watcher_open wd inf :
  inf <> -1 -> wd <> -1 ->
  shutdown_watcher (Handles wd inf)
  = (tt, Handles (-1) (-1), [Sys_inotify_rm_watch inf wd; Sys_close inf]).
Proof.
  intros Hi Hw. unfold shutdown_watcher, bind, get, put, emit, pure.
  cbn [s_inotify_instance s_watch_instance].
  replace (inf =? -1) with false by (symmetry; apply Z.eqb_neq; exact Hi).
  replace (wd =? -1) with false by (symmetry; apply Z.eqb_neq; exact Hw).
  reflexivity.
Qed.

(** Set-up and tear-down compose to nothing held: after a successful
    [initialise_watcher], [shutdown_watcher] removes the very watch and
    closes the very instance that were registered, in that order, and the
    handles are back at -1, whatever they held before. *)
Theorem setup_then_shutdown w target verbose h :
  inotify_init_ret w <> -1 -> inotify_add_watch_ret w <> -1 ->
  handles_of ((initialise_watcher w target verbose;; shutdown_watcher) h)
  = initial_handles
  /\ system_calls
       (actions ((initialise_watcher w target verbose;; shutdown_watcher) h))
     = [Sys_inotify_init;
        Sys_inotify_add_watch (inotify_init_ret w) target
          (Z.lor IN_MODIFY IN_EXCL_UNLINK);
        Sys_inotify_rm_watch (inotify_init_ret w) (inotify_add_watch_ret w);
        Sys_close (inotify_init_ret w)].
Proof.
  intros Hi Ha. rewrite handles_of_bind, actions_bind.
  rewrite initialise_watcher_ok by assumption.
  rewrite ?result_triple, ?handles_of_triple, ?actions_triple.
  rewrite shutdown_watcher_open by assumption.
  rewrite handles_of_triple, actions_triple.
  split; [reflexivity|]. destruct verbose; reflexivity.
Qed.

Lemma setup_then_shutdown_witness :
  handles_of ((initialise_watcher (Startup 0 3 4 1 EmptyString) "a.txt" true;;
               shutdown_watcher) (Handles 7 8))
  = initial_handles.
Proof.
  apply (proj1 (setup_then_shutdown (Startup 0 3 4 1 EmptyString) "a.txt"
                  true (Handles 7 8)
                  ltac:(vm_compute; congruence)
                  ltac:(vm_compute; congruence))).
Defined.

(** A session whose start-up succeeded, taken apart: the start-up calls,
    the loop, and, once the loop is left, the tear-down. *)
Lemma watch_for_changes_session
    w ws watch_target command continuous verbose h :
  startup_ok w ->
  watch_for_changes w ws watch_target command continuous verbose h
  = (match result (session_loop w ws command verbose) with
     | Still_waiting _ => None
     | Left_loop l => Some (ret l)
     end,
     match result (session_loop w ws command verbose) with
     | Still_waiting _ =>
         Handles (inotify_add_watch_ret w) (inotify_init_ret w)
     | Left_loop _ => Handles (-1) (-1)
     end,
     ([Sys_sigprocmask; Sys_signalfd]
      ++ [Sys_inotify_init;
          Sys_inotify_add_watch (inotify_init_ret w) watch_target
            (Z.lor IN_MODIFY IN_EXCL_UNLINK)]
      ++ (if verbose
          then [Stdout (text ["Begun monitoring of '"; watch_target; "' - ";
                              fmt_d (inotify_add_watch_ret w); nl]%string)]
          else []))
     ++ actions (session_loop w ws command verbose)
     ++ match result (session_loop w ws command verbose) with
        | Still_waiting _ => []
        | Left_loop _ =>
            (if verbose then [Stdout (text ["Closing down."; nl]%string)]
             else [])
            ++ [Sys_inotify_rm_watch (inotify_init_ret w)
                  (inotify_add_watch_ret w);
                Sys_close (inotify_init_ret w);
                Sys_close (signalfd_ret w)]
        end).
Proof.
  intros (Hm & Hf & Hi & Ha). unfold watch_for_changes, session_loop.
  unfold bind at 1. rewrite initialize_signals_ok by assumption.
  replace (signalfd_ret w =? -1) with false
    by (symmetry; apply Z.eqb_neq; lia).
  unfold bind at 1. rewrite initialise_watcher_ok by assumption.
  replace (inotify_init_ret w =? -1) with false
    by (symmetry; apply Z.eqb_neq; exact Hi).
  unfold bind at 1.
  pose proof (event_loop_handles command verbose (signalfd_ret w)
                (inotify_init_ret w) ws (Locals EXIT_SUCCESS 0)
                (Handles (inotify_add_watch_ret w) (inotify_init_ret w)))
    as Hh.
  destruct (event_loop command verbose (signalfd_ret w) (inotify_init_ret w)
              ws (Locals EXIT_SUCCESS 0)
              (Handles (inotify_add_watch_ret w) (inotify_init_ret w)))
    as [[r h1] t1].
  rewrite handles_of_triple in Hh. subst h1.
  rewrite result_triple, actions_triple.
  destruct r as [l | l].
  - destruct verbose; unfold when, bind, emit, pure; cbv beta iota zeta;
      rewrite shutdown_watcher_open by assumption;
      cbn [app]; rewrite <- ?app_assoc; cbn [app]; reflexivity.
  - unfold pure. rewrite !app_nil_r, <- ?app_assoc. reflexivity.
Qed.

(** ** Sessions *)

Lemma app_tail3_no_release t u (a b c : action) :
  existsb is_release t = false -> existsb is_release u = false ->
  exists v, (t ++ u ++ [a; b; c]) = v ++ [a; b; c]
            /\ existsb is_release v = false.
Proof.
  intros Ht Hu. exists (t ++ u). rewrite <- app_assoc. split; [reflexivity|].
  rewrite existsb_app, Ht, Hu. reflexivity.
Qed.

(** Whatever ends the loop, the session is torn down in full before
    [watch_for_changes] returns: the status is success or failure, the
    handles are back at -1, and the last three calls remove the watch, close
    the instance and close the signal descriptor; nothing is closed or
    removed before that.  While the loop is waiting nothing is released. *)
Theorem session_teardown w ws watch_target command continuous verbose h :
  startup_ok w ->
  match result (watch_for_changes w ws watch_target command continuous
                  verbose h) with
  | Some status =>
      (status = EXIT_SUCCESS \/ status = EXIT_FAILURE)
      /\ handles_of (watch_for_changes w ws watch_target command continuous
                       verbose h) = Handles (-1) (-1)
      /\ exists t,
           actions (watch_for_changes w ws watch_target command continuous
                      verbose h)
           = t ++ [Sys_inotify_rm_watch (inotify_init_ret w)
                     (inotify_add_watch_ret w);
                   Sys_close (inotify_init_ret w);
                   Sys_close (signalfd_ret w)]
           /\ existsb is_release t = false
  | None =>
      handles_of (watch_for_changes w ws watch_target command continuous
                    verbose h)
      = Handles (inotify_add_watch_ret w) (inotify_init_ret w)
      /\ existsb is_release
           (actions (watch_for_changes w ws watch_target command continuous
                       verbose h)) = false
  end.
Proof.
  intros Hok. rewrite watch_for_changes_session by exact Hok.
  rewrite result_triple, handles_of_triple, actions_triple.
  pose proof (loop_status command verbose (signalfd_ret w)
                (inotify_init_ret w) ws 0
                (Handles (inotify_add_watch_ret w) (inotify_init_ret w)))
    as Hst.
  pose proof (event_loop_no_release command verbose (signalfd_ret w)
                (inotify_init_ret w) ws (Locals EXIT_SUCCESS 0)
                (Handles (inotify_add_watch_ret w) (inotify_init_ret w)))
    as Hrel.
  fold (session_loop w ws command verbose) in Hst, Hrel.
  destruct (result (session_loop w ws command verbose)) as [l | l].
  - split; [destruct Hst as [Hs | [Hs _]]; auto|]. split; [reflexivity|].
    rewrite (app_assoc (actions _)).
    apply app_tail3_no_release.
    + destruct verbose; reflexivity.
    + rewrite existsb_app, Hrel. destruct verbose; reflexivity.
  - split; [reflexivity|]. rewrite !existsb_app, Hrel.
    destruct verbose; reflexivity.
Qed.

Lemma session_teardown_witness :
  handles_of (watch_for_changes (Startup 0 3 4 1 EmptyString)
                [change_pass [modify_a]; signal_pass SIGTERM] "a.txt" "make"
                true false initial_handles)
  = Handles (-1) (-1).
Proof.
  pose proof (session_teardown (Startup 0 3 4 1 EmptyString)
                [change_pass [modify_a]; signal_pass SIGTERM] "a.txt" "make"
                true false initial_handles) as H.
  assert (Hok : startup_ok (Startup 0 3 4 1 EmptyString))
    by (vm_compute; repeat split; congruence).
  specialize (H Hok).
  change (result (watch_for_changes (Startup 0 3 4 1 EmptyString)
                    [change_pass [modify_a]; signal_pass SIGTERM] "a.txt"
                    "make" true false initial_handles))
    with (Some EXIT_SUCCESS) in H.
  exact (proj1 (proj2 H)).
Defined.

(** When a pass breaks out of a waiting loop the session returns the status
    of that pass and is torn down. *)
Lemma session_break w pre wx post watch_target command continuous verbose h
    l l' :
  startup_ok w ->
  result (session_loop w pre command verbose) = Still_waiting l ->
  result (loop_body command verbose (signalfd_ret w) (inotify_init_ret w) wx
            l (Handles (inotify_add_watch_ret w) (inotify_init_ret w)))
  = (Break, l') ->
  result (watch_for_changes w (pre ++ wx :: post) watch_target command
            continuous verbose h) = Some (ret l')
  /\ handles_of (watch_for_changes w (pre ++ wx :: post) watch_target command
                   continuous verbose h) = Handles (-1) (-1)
  /\ count_system
       (actions (watch_for_changes w (pre ++ wx :: post) watch_target command
                   continuous verbose h))
     = count_system (actions (session_loop w pre command verbose))
       + count_system
           (actions (loop_body command verbose (signalfd_ret w)
                       (inotify_init_ret w) wx l
                       (Handles (inotify_add_watch_ret w)
                          (inotify_init_ret w)))).
Proof.
  intros Hok Hpre Hx. rewrite watch_for_changes_session by exact Hok.
  rewrite result_triple, handles_of_triple, actions_triple.
  unfold session_loop in *.
  rewrite (event_loop_app_waiting _ _ _ _ pre (wx :: post) _ _ _ Hpre).
  rewrite event_loop_cons, Hx.
  rewrite !result_triple, !actions_triple.
  split; [reflexivity|]. split; [reflexivity|].
  rewrite !count_system_app.
  destruct verbose; unfold count_system;
    cbn [filter is_system List.length app]; lia.
Qed.

(** A termination signal ends the session cleanly at any point: when the
    loop is waiting, with or without events pending, and the signal
    descriptor delivers SIGINT or SIGTERM, the session returns success, the
    watch is removed and the descriptors are closed, the command is not run
    again (pending events are dropped) and later passes are never made. *)
Theorem terminate_signal_ends_session
    w pre wx post watch_target command continuous verbose h l :
  startup_ok w ->
  result (session_loop w pre command verbose) = Still_waiting l ->
  signal_read_ok wx ->
  ssi_signo wx = SIGINT \/ ssi_signo wx = SIGTERM ->
  result (watch_for_changes w (pre ++ wx :: post) watch_target command
            continuous verbose h) = Some EXIT_SUCCESS
  /\ handles_of (watch_for_changes w (pre ++ wx :: post) watch_target command
                   continuous verbose h) = Handles (-1) (-1)
  /\ count_system
       (actions (watch_for_changes w (pre ++ wx :: post) watch_target command
                   continuous verbose h))
     = count_system (actions (session_loop w pre command verbose)).
Proof.
  intros Hok Hpre (Hp & Hs & Hr) Hsig.
  assert (Hx : result (loop_body command verbose (signalfd_ret w)
                         (inotify_init_ret w) wx l
                         (Handles (inotify_add_watch_ret w)
                            (inotify_init_ret w)))
               = (Break, l)).
  { rewrite loop_body_result, check_signal_result.
    replace (poll_ret wx =? 0) with false by (symmetry; apply Z.eqb_neq; lia).
    replace (poll_ret wx <? 0) with false by (symmetry; apply Z.ltb_ge; lia).
    replace (poll_ret wx >? 0) with true by (symmetry; apply Z.gtb_lt; lia).
    replace (Z.land (sig_revents wx) POLLIN =? 0) with false
      by (symmetry; apply Z.eqb_neq; exact Hs).
    rewrite Hr, Z.eqb_refl. cbn [negb].
    destruct Hsig as [-> | ->]; reflexivity. }
  destruct (session_break w pre wx post watch_target command continuous
              verbose h l l Hok Hpre Hx) as (H1 & H2 & H3).
  pose proof (loop_status command verbose (signalfd_ret w)
                (inotify_init_ret w) pre 0
                (Handles (inotify_add_watch_ret w) (inotify_init_ret w)))
    as Hst.
  fold (session_loop w pre command verbose) in Hst. rewrite Hpre in Hst.
  rewrite H1, H2, H3, Hst, loop_body_count_system.
  replace (poll_ret wx =? 0) with false by (symmetry; apply Z.eqb_neq; lia).
  cbn [andb]. repeat split. lia.
Qed.

Lemma terminate_signal_ends_session_witness :
  result (watch_for_changes (Startup 0 3 4 1 EmptyString)
            ([change_pass [modify_a]] ++ signal_pass SIGTERM
             :: [timeout_pass 0])
            "a.txt" "make" true true initial_handles) = Some EXIT_SUCCESS
  /\ handles_of (watch_for_changes (Startup 0 3 4 1 EmptyString)
                   ([change_pass [modify_a]] ++ signal_pass SIGTERM
                    :: [timeout_pass 0])
                   "a.txt" "make" true true initial_handles)
     = Handles (-1) (-1)
  /\ count_system
       (actions (watch_for_changes (Startup 0 3 4 1 EmptyString)
                   ([change_pass [modify_a]] ++ signal_pass SIGTERM
                    :: [timeout_pass 0])
                   "a.txt" "make" true true initial_handles))
     = count_system
         (actions (session_loop (Startup 0 3 4 1 EmptyString)
                     [change_pass [modify_a]] "make" true)).
Proof.
  apply (terminate_signal_ends_session (Startup 0 3 4 1 EmptyString)
           [change_pass [modify_a]] (signal_pass SIGTERM) [timeout_pass 0]
           "a.txt" "make" true true initial_handles (Locals EXIT_SUCCESS 1)).
  - vm_compute. repeat split; congruence.
  - vm_compute. reflexivity.
  - vm_compute. repeat split; congruence.
  - right. reflexivity.
Defined.

Lemma loop_body_fatal command verbose signal_fd inotify_fd w l h :
  fatal_pass w = true ->
  result (loop_body command verbose signal_fd inotify_fd w l h)
  = (Break, Locals EXIT_FAILURE (watch_events l)).
Proof.
  intros Hf. rewrite loop_body_result. unfold fatal_pass in Hf.
  destruct (poll_ret w =? 0) eqn:E0.
  - apply Z.eqb_eq in E0. rewrite E0 in Hf. discriminate Hf.
  - destruct (poll_ret w <? 0); [reflexivity|]. cbn [orb] in Hf.
    destruct (poll_ret w >? 0); [|discriminate Hf]. cbn [andb] in Hf.
    rewrite check_signal_result. apply andb_prop in Hf as [H1 H2].
    rewrite H1, H2. reflexivity.
Qed.

(** A fatal pass ends the session with failure, after tear-down: when the
    loop is waiting and the wait fails, or the read of the signal descriptor
    is short, the session returns failure, the watch is removed and the
    descriptors are closed, and the command is not run again. *)
Theorem fatal_pass_ends_session
    w pre wx post watch_target command continuous verbose h l :
  startup_ok w ->
  result (session_loop w pre command verbose) = Still_waiting l ->
  fatal_pass wx = true ->
  result (watch_for_changes w (pre ++ wx :: post) watch_target command
            continuous verbose h) = Some EXIT_FAILURE
  /\ handles_of (watch_for_changes w (pre ++ wx :: post) watch_target command
                   continuous verbose h) = Handles (-1) (-1)
  /\ count_system
       (actions (watch_for_changes w (pre ++ wx :: post) watch_target command
                   continuous verbose h))
     = count_system (actions (session_loop w pre command verbose)).
Proof.
  intros Hok Hpre Hf.
  pose proof (loop_body_fatal command verbose (signalfd_ret w)
                (inotify_init_ret w) wx l
                (Handles (inotify_add_watch_ret w) (inotify_init_ret w)) Hf)
    as Hx.
  destruct (session_break w pre wx post watch_target command continuous
              verbose h l _ Hok Hpre Hx) as (H1 & H2 & H3).
  rewrite H1, H2, H3, loop_body_count_system.
  replace (poll_ret wx =? 0) with false.
  - cbn [andb ret]. repeat split. lia.
  - unfold fatal_pass in Hf. destruct (poll_ret wx =? 0) eqn:E; [|reflexivity].
    apply Z.eqb_eq in E. rewrite E in Hf. discriminate Hf.
Qed.

Lemma fatal_pass_ends_session_witness :
  result (watch_for_changes (Startup 0 3 4 1 EmptyString)
            ([change_pass [modify_a]]
             ++ Iteration 1 POLLIN 0 EmptyString 4 0 (Read_result 0 []) 0
             :: [timeout_pass 0])
            "a.txt" "make" true false initial_handles) = Some EXIT_FAILURE
  /\ handles_of (watch_for_changes (Startup 0 3 4 1 EmptyString)
                   ([change_pass [modify_a]]
                    ++ Iteration 1 POLLIN 0 EmptyString 4 0 (Read_result 0 [])
                         0
                    :: [timeout_pass 0])
                   "a.txt" "make" true false initial_handles)
     = Handles (-1) (-1)
  /\ count_system
       (actions (watch_for_changes (Startup 0 3 4 1 EmptyString)
                   ([change_pass [modify_a]]
                    ++ Iteration 1 POLLIN 0 EmptyString 4 0 (Read_result 0 [])
                         0
                    :: [timeout_pass 0])
                   "a.txt" "make" true false initial_handles))
     = count_system
         (actions (session_loop (Startup 0 3 4 1 EmptyString)
                     [change_pass [modify_a]] "make" false)).
Proof.
  apply (fatal_pass_ends_session (Startup 0 3 4 1 EmptyString)
           [change_pass [modify_a]]
           (Iteration 1 POLLIN 0 EmptyString 4 0 (Read_result 0 []) 0)
           [timeout_pass 0] "a.txt" "make" true false initial_handles
           (Locals EXIT_SUCCESS 1)).
  - vm_compute. repeat split; congruence.
  - vm_compute. reflexivity.
  - reflexivity.
Defined.

(** A signal other than SIGINT and SIGTERM is read and dropped: the pass
    ends as the same pass without the signal would, and the change source is
    still drained in it when it is ready. *)
Theorem other_signal_is_ignored command verbose signal_fd inotify_fd w l h :
  signal_read_ok w ->
  ssi_signo w <> SIGINT -> ssi_signo w <> SIGTERM ->
  result (loop_body command verbose signal_fd inotify_fd w l h)
  = result (loop_body command verbose signal_fd inotify_fd (without_signal w)
              l h)
  /\ system_calls
       (actions (loop_body command verbose signal_fd inotify_fd w l h))
     = [Sys_poll [signal_fd; inotify_fd] FD_POLL_MAX
          (if negb (watch_events l =? 0) then 100 else 1000);
        Sys_read signal_fd sizeof_signalfd_siginfo]
       ++ (if negb (Z.land (ino_revents w) POLLIN =? 0)
           then [Sys_read inotify_fd EVENT_BUF_LEN] else []).
Proof.
  intros (Hp & Hs & Hr) Hint Hterm.
  rewrite !loop_body_result, loop_body_system_calls, !check_signal_result.
  cbn [without_signal poll_ret sig_revents].
  replace (poll_ret w =? 0) with false by (symmetry; apply Z.eqb_neq; lia).
  replace (poll_ret w <? 0) with false by (symmetry; apply Z.ltb_ge; lia).
  replace (poll_ret w >? 0) with true by (symmetry; apply Z.gtb_lt; lia).
  replace (Z.land (sig_revents w) POLLIN =? 0) with false
    by (symmetry; apply Z.eqb_neq; exact Hs).
  rewrite Hr, Z.eqb_refl.
  replace (ssi_signo w =? SIGINT) with false
    by (symmetry; apply Z.eqb_neq; exact Hint).
  replace (ssi_signo w =? SIGTERM) with false
    by (symmetry; apply Z.eqb_neq; exact Hterm).
  cbn [negb orb Z.land Z.eqb]. rewrite !check_inotify_result.
  split; reflexivity.
Qed.

Lemma other_signal_is_ignored_witness :
  result (loop_body "make" false 3 4
            (Iteration 2 POLLIN POLLIN EmptyString sizeof_signalfd_siginfo 10
               (read_of [modify_a] []) 0)
            (Locals EXIT_SUCCESS 0) initial_handles)
  = result (loop_body "make" false 3 4
              (without_signal
                 (Iteration 2 POLLIN POLLIN EmptyString
                    sizeof_signalfd_siginfo 10 (read_of [modify_a] []) 0))
              (Locals EXIT_SUCCESS 0) initial_handles).
Proof.
  apply (proj1 (other_signal_is_ignored "make" false 3 4
                  (Iteration 2 POLLIN POLLIN EmptyString
                     sizeof_signalfd_siginfo 10 (read_of [modify_a] []) 0)
                  (Locals EXIT_SUCCESS 0) initial_handles
                  ltac:(vm_compute; repeat split; congruence)
                  ltac:(vm_compute; congruence)
                  ltac:(vm_compute; congruence))).
Defined.

(** When the signals cannot be set up nothing else is attempted:
    [watch_for_changes] returns failure with the handles untouched, having
    made no call but [sigprocmask] and, if that one succeeded, [signalfd];
    there is nothing to close. *)
Theorem signal_setup_failure w ws watch_target command continuous verbose h :
  sigprocmask_ret w < 0 \/ signalfd_ret w < 0 ->
  result (watch_for_changes w ws watch_target command continuous verbose h)
  = Some EXIT_FAILURE
  /\ handles_of (watch_for_changes w ws watch_target command continuous
                   verbose h) = h
  /\ system_calls
       (actions (watch_for_changes w ws watch_target command continuous
                   verbose h))
     = if sigprocmask_ret w <? 0 then [Sys_sigprocmask]
       else [Sys_sigprocmask; Sys_signalfd].
Proof.
  intros Hfail. unfold watch_for_changes, initialize_signals, bind, emit, pure.
  destruct (sigprocmask_ret w <? 0) eqn:Em; [repeat split|].
  apply Z.ltb_ge in Em.
  replace (signalfd_ret w <? 0) with true
    by (symmetry; apply Z.ltb_lt; lia).
  repeat split.
Qed.

Lemma signal_setup_failure_witness :
  result (watch_for_changes (Startup 0 (-1) 4 1 "Too many open files")
            [timeout_pass 0] "a.txt" "make" true false initial_handles)
  = Some EXIT_FAILURE.
Proof.
  apply (proj1 (signal_setup_failure
                  (Startup 0 (-1) 4 1 "Too many open files")
                  [timeout_pass 0] "a.txt" "make" true false initial_handles
                  ltac:(right; vm_compute; reflexivity))).
Defined.

Lemma initialise_watcher_failed w target verbose h :
  inotify_init_ret w = -1 ->
  initialise_watcher w target verbose h
  = (-1, h,
     [Sys_inotify_init;
      Stderr (text ["Failed to initalise iNotify: "; startup_strerror w;
                    nl]%string)]).
Proof.
  intros Hi. unfold initialise_watcher, bind, emit, pure. rewrite Hi.
  reflexivity.
Qed.

(** When the inotify instance cannot be created the signal descriptor,
    already open, is closed again and [watch_for_changes] returns failure
    without registering a watch or waiting; the handles are untouched. *)
Theorem monitor_failure_releases_signal_fd
    w ws watch_target command continuous verbose h :
  0 <= sigprocmask_ret w -> 0 <= signalfd_ret w ->
  inotify_init_ret w = -1 ->
  result (watch_for_changes w ws watch_target command continuous verbose h)
  = Some EXIT_FAILURE
  /\ handles_of (watch_for_changes w ws watch_target command continuous
                   verbose h) = h
  /\ system_calls
       (actions (watch_for_changes w ws watch_target command continuous
                   verbose h))
     = [Sys_sigprocmask; Sys_signalfd; Sys_inotify_init;
        Sys_close (signalfd_ret w)].
Proof.
  intros Hm Hf Hi. unfold watch_for_changes.
  rewrite result_bind, handles_of_bind, actions_bind.
  rewrite initialize_signals_ok by assumption.
  rewrite result_triple, handles_of_triple, actions_triple.
  replace (signalfd_ret w =? -1) with false
    by (symmetry; apply Z.eqb_neq; lia).
  rewrite result_bind, handles_of_bind, actions_bind.
  rewrite initialise_watcher_failed by exact Hi.
  rewrite result_triple, handles_of_triple, actions_triple.
  repeat split.
Qed.

Lemma monitor_failure_releases_signal_fd_witness :
  system_calls
    (actions (watch_for_changes monitor_refused [timeout_pass 0] "a.txt"
                "make" true true initial_handles))
  = [Sys_sigprocmask; Sys_signalfd; Sys_inotify_init; Sys_close 3].
Proof.
  apply (proj2 (proj2 (monitor_failure_releases_signal_fd monitor_refused
                         [timeout_pass 0] "a.txt" "make" true true
                         initial_handles
                         ltac:(vm_compute; congruence)
                         ltac:(vm_compute; congruence)
                         eq_refl))).
Defined.

(** ** The verbose flag *)

Lemma system_calls_app t u :
  system_calls (t ++ u) = system_calls t ++ system_calls u.
Proof. unfold system_calls. apply filter_app. Qed.

Lemma agree_refl {A} (m : M A) : agree_up_to_output m m.
Proof. intros h. repeat split. Qed.

Lemma agree_bind {A B} (m1 m2 : M A) (k1 k2 : A -> M B) :
  agree_up_to_output m1 m2 ->
  (forall a, agree_up_to_output (k1 a) (k2 a)) ->
  agree_up_to_output (bind m1 k1) (bind m2 k2).
Proof.
  intros Hm Hk h. destruct (Hm h) as (Hr & Hh & Ha).
  rewrite !result_bind, !handles_of_bind, !actions_bind, !system_calls_app.
  rewrite Hr, Hh, Ha.
  destruct (Hk (result (m2 h)) (handles_of (m2 h))) as (Hr' & Hh' & Ha').
  rewrite Hr', Hh', Ha'. repeat split.
Qed.

Lemma agree_when_print {A} b1 b2 s1 s2 (m : M A) :
  agree_up_to_output (when b1 (emit (Stdout s1));; m)
                     (when b2 (emit (Stdout s2));; m).
Proof.
  intros h. unfold when, bind, emit, pure. destruct b1, b2;
    destruct (m h) as [[a h'] t]; repeat split.
Qed.

Lemma loop_body_verbose command signal_fd inotify_fd w l :
  agree_up_to_output
    (loop_body command true signal_fd inotify_fd w l)
    (loop_body command false signal_fd inotify_fd w l).
Proof.
  intros h. rewrite !loop_body_handles, !loop_body_system_calls.
  rewrite !loop_body_result, !on_timeout_result, !check_signal_result.
  repeat split.
  destruct (poll_ret w =? 0); [reflexivity|].
  destruct (poll_ret w <? 0); [reflexivity|].
  destruct (poll_ret w >? 0); [|reflexivity].
  destruct (if negb (Z.land (sig_revents w) POLLIN =? 0) then _ else _)
    as [[|] l']; [|reflexivity].
  rewrite !check_inotify_result.
  rewrite (watch_handler_count (ino_read w) inotify_fd true h).
  rewrite (watch_handler_count (ino_read w) inotify_fd false h).
  reflexivity.
Qed.

Lemma event_loop_verbose command signal_fd inotify_fd ws :
  forall l,
  agree_up_to_output
    (event_loop command true signal_fd inotify_fd ws l)
    (event_loop command false signal_fd inotify_fd ws l).
Proof.
  induction ws as [|w ws IH]; intros l; [apply agree_refl|].
  cbn [event_loop]. apply agree_bind; [apply loop_body_verbose|].
  intros [[|] l']; [apply IH | apply agree_refl].
Qed.

Lemma initialise_watcher_verbose w target :
  agree_up_to_output (initialise_watcher w target true)
                     (initialise_watcher w target false).
Proof.
  intros h. unfold initialise_watcher, when, bind, emit, pure, put.
  destruct (inotify_init_ret w =? -1); [repeat split|].
  destruct (inotify_add_watch_ret w =? -1); repeat split.
Qed.

Lemma watch_for_changes_verbose w ws watch_target command continuous :
  agree_up_to_output
    (watch_for_changes w ws watch_target command continuous true)
    (watch_for_changes w ws watch_target command continuous false).
Proof.
  unfold watch_for_changes.
  apply agree_bind; [apply agree_refl|]. intros signal_fd.
  destruct (signal_fd =? -1); [apply agree_refl|].
  apply agree_bind; [apply initialise_watcher_verbose|]. intros inotify_fd.
  destruct (inotify_fd =? -1); [apply agree_refl|].
  apply agree_bind; [apply event_loop_verbose|]. intros [l | l].
  - apply agree_when_print.
  - apply agree_refl.
Qed.

(** The verbose flag of a session changes what is printed and nothing else:
    for all answers of the operating system, [watch_for_changes] returns the
    same status, leaves the same handles and makes the same system calls, in
    the same order, with the flag as without it. *)
Theorem verbose_changes_only_output
    w ws watch_target command continuous h :
  result (watch_for_changes w ws watch_target command continuous true h)
  = result (watch_for_changes w ws watch_target command continuous false h)
  /\ handles_of (watch_for_changes w ws watch_target command continuous true
                   h)
     = handles_of (watch_for_changes w ws watch_target command continuous
                     false h)
  /\ system_calls
       (actions (watch_for_changes w ws watch_target command continuous true
                   h))
     = system_calls
         (actions (watch_for_changes w ws watch_target command continuous
                     false h)).
Proof.
  exact (watch_for_changes_verbose w ws watch_target command continuous h).
Qed.

(** * Properties of [main.c] *)

(** ** Calls of [getopt_long] *)

Lemma getopt_long_quiet a h :
  go_ret a <> char_code "?" -> getopt_long a h = (go_ret a, h, []).
Proof.
  intros H. unfold getopt_long, bind, pure.
  replace (go_ret a =? char_code "?") with false
    by (symmetry; apply Z.eqb_neq; exact H).
  reflexivity.
Qed.

(** A call returns its code, leaves the handles alone and makes no system
    call of its own. *)
Lemma getopt_long_answer a h :
  exists t, getopt_long a h = (go_ret a, h, t) /\ system_calls t = [].
Proof.
  unfold getopt_long, bind, pure, emit.
  destruct (go_ret a =? char_code "?"); [|eexists; split; reflexivity].
  destruct (go_diagnostic a); eexists; split; reflexivity.
Qed.

(** The code '?' always selects the help. *)
Lemma option_ident_query a :
  go_ret a = char_code "?" -> option_ident a = OID_HELP.
Proof. intros H. unfold option_ident. rewrite H. reflexivity. Qed.

Lemma is_setting_ret a :
  is_setting a = true -> go_ret a <> -1 /\ go_ret a <> char_code "?".
Proof.
  intros H. split; intros E.
  - unfold is_setting in H. rewrite E in H. discriminate H.
  - unfold is_setting in H. rewrite (option_ident_query a E) in H.
    rewrite andb_comm in H. cbn in H.
    destruct (negb (go_ret a =? -1)); discriminate H.
Qed.

(** After a call that wrote nothing and did not return -1 the option is
    processed. *)
Lemma parse_options_step cwd a rest o h :
  go_ret a <> -1 -> go_ret a <> char_code "?" ->
  parse_options cwd (a :: rest) o h
  = bind (process_option cwd a o)
      (fun r => match r with
                | (true, o') => parse_options cwd rest o'
                | (false, o') => pure (false, o')
                end) h.
Proof.
  intros Hret Hq. cbn [parse_options]. unfold bind at 1.
  rewrite getopt_long_quiet by exact Hq.
  replace (go_ret a =? -1) with false
    by (symmetry; apply Z.eqb_neq; exact Hret).
  destruct (bind _ _ h) as [[r h'] t]. reflexivity.
Qed.

Lemma option_ident_not_help a :
  option_ident a <> OID_HELP -> go_ret a <> char_code "?".
Proof. intros H E. apply H, option_ident_query, E. Qed.

(** ** Options that set a variable *)

Lemma process_option_setting cwd a o h :
  is_setting a = true ->
  exists o',
    process_option cwd a o h = ((true, o'), h, [])
    /\ (is_file a = false -> s_watch_target o = None ->
        s_watch_target o' = None)
    /\ (option_ident a = OID_STDIN -> s_watch_target o' = None)
    /\ (is_exec a = false -> s_exec_command o = None ->
        s_exec_command o' = None).
Proof.
  unfold is_setting, is_file, is_exec, process_option. intros H.
  apply andb_prop in H as [H Hhi]. apply andb_prop in H as [Hret Hlo].
  rewrite Hret. cbn [andb]. apply Z.leb_le in Hlo, Hhi.
  unfold OID_HELP, OID_VERSION, OID_PATH, OID_FILE, OID_STDIN, OID_EXEC,
    OID_ONCE, OID_VERBOSE in *.
  replace (option_ident a =? 0) with false by (symmetry; apply Z.eqb_neq; lia).
  replace (option_ident a =? 1) with false by (symmetry; apply Z.eqb_neq; lia).
  replace (option_ident a =? 2) with false by (symmetry; apply Z.eqb_neq; lia).
  destruct (option_ident a =? 3) eqn:E3.
  { eexists. split; [reflexivity|]. apply Z.eqb_eq in E3.
    repeat split; cbn; try discriminate; intros; try lia; assumption. }
  destruct (option_ident a =? 4) eqn:E4.
  { eexists. split; [reflexivity|]. apply Z.eqb_eq in E4.
    rewrite E4. repeat split; cbn; intros; try reflexivity; assumption. }
  destruct (option_ident a =? 5) eqn:E5.
  { eexists. split; [reflexivity|]. apply Z.eqb_eq in E5.
    repeat split; cbn; try discriminate; intros; try lia; assumption. }
  destruct (option_ident a =? 6) eqn:E6.
  { eexists. split; [reflexivity|]. apply Z.eqb_eq in E6.
    repeat split; cbn; intros; try lia; assumption. }
  destruct (option_ident a =? 7) eqn:E7.
  { eexists. split; [reflexivity|]. apply Z.eqb_eq in E7.
    repeat split; cbn; intros; try lia; assumption. }
  apply Z.eqb_neq in E3, E4, E5, E6, E7. lia.
Qed.

(** Setting options are taken in silently, one after the other. *)
Lemma parse_options_settings cwd pre :
  forallb is_setting pre = true ->
  forall o h,
  exists o',
    (forall rest,
     parse_options cwd (pre ++ rest) o h = parse_options cwd rest o' h)
    /\ (forallb (fun a => negb (is_file a)) pre = true ->
        s_watch_target o = None -> s_watch_target o' = None)
    /\ (forallb (fun a => negb (is_exec a)) pre = true ->
        s_exec_command o = None -> s_exec_command o' = None).
Proof.
  induction pre as [|a pre IH]; intros Hall o h.
  - exists o. repeat split; auto.
  - cbn [forallb] in Hall. apply andb_prop in Hall as [Ha Hpre].
    destruct (process_option_setting cwd a o h Ha)
      as (o1 & Hstep & Ht & _ & He).
    destruct (IH Hpre o1 h) as (o' & Hrest & Ht' & He').
    exists o'. split; [|split].
    + intros rest. cbn [app].
      destruct (is_setting_ret a Ha) as [Hret Hq].
      rewrite parse_options_step by assumption.
      unfold bind. rewrite Hstep.
      specialize (Hrest rest).
      destruct (parse_options cwd (pre ++ rest) o1 h) as [[r1 h1] t1].
      rewrite <- Hrest. reflexivity.
    + cbn [forallb]. intros Hf Hnone. apply andb_prop in Hf as [Hfa Hfp].
      apply Ht'; [exact Hfp|]. apply Ht; [|exact Hnone].
      destruct (is_file a); [discriminate Hfa | reflexivity].
    + cbn [forallb]. intros Hf Hnone. apply andb_prop in Hf as [Hfa Hfp].
      apply He'; [exact Hfp|]. apply He; [|exact Hnone].
      destruct (is_exec a); [discriminate Hfa | reflexivity].
Qed.

(** The help text costs one system call: [report_path] asks for the
    working directory. *)
Lemma report_help_prints cwd h :
  handles_of (report_help cwd h) = h
  /\ system_calls (actions (report_help cwd h)) = [Sys_getcwd sizeof_path]
  /\ actions (report_help cwd h) <> [].
Proof. repeat split. discriminate. Qed.

(** An option that sets no variable stops the parsing with something
    printed; the help and the path report ask for the working directory,
    and no other call is made. *)
Lemma process_option_stops cwd a o h :
  is_setting a = false -> go_ret a <> -1 ->
  exists t,
    process_option cwd a o h = ((false, o), h, t)
    /\ system_calls t
       = (if (option_ident a =? OID_HELP) || (option_ident a =? OID_PATH)
          then [Sys_getcwd sizeof_path] else [])
    /\ t <> [].
Proof.
  unfold is_setting, process_option. intros H Hret.
  replace (go_ret a =? -1) with false in H
    by (symmetry; apply Z.eqb_neq; exact Hret).
  cbn [negb andb] in H.
  destruct (option_ident a =? OID_HELP) eqn:E0;
    [eexists; repeat split; discriminate|].
  destruct (option_ident a =? OID_VERSION) eqn:E1;
    [apply Z.eqb_eq in E1; rewrite E1; eexists; repeat split; discriminate|].
  destruct (option_ident a =? OID_PATH) eqn:E2;
    [eexists; repeat split; discriminate|].
  assert (Hid : option_ident a < OID_FILE \/ OID_VERBOSE < option_ident a).
  { destruct (OID_FILE <=? option_ident a) eqn:E3; cbn [andb] in H.
    - apply Z.leb_gt in H. right. exact H.
    - apply Z.leb_gt in E3. left. exact E3. }
  unfold OID_FILE, OID_STDIN, OID_EXEC, OID_ONCE, OID_VERBOSE in *.
  replace (option_ident a =? 3) with false by (symmetry; apply Z.eqb_neq; lia).
  replace (option_ident a =? 4) with false by (symmetry; apply Z.eqb_neq; lia).
  replace (option_ident a =? 5) with false by (symmetry; apply Z.eqb_neq; lia).
  replace (option_ident a =? 6) with false by (symmetry; apply Z.eqb_neq; lia).
  replace (option_ident a =? 7) with false by (symmetry; apply Z.eqb_neq; lia).
  eexists. repeat split. discriminate.
Qed.

(** ** When [main] does not watch *)

(** The first option that is not a file, stdin, exec, once or verbose
    option (help, version, path, or a code [main] does not know) ends the
    run: something is printed, the exit status is [EXIT_FAILURE], also for
    help, version and path, and no watch is started, whatever target and
    command were given before it or come after it: the one system call
    made is the [getcwd] of the help and of the path report. *)
Theorem main_info_option_stops argc cwd pre a post w ws h :
  argc <> 1 ->
  forallb is_setting pre = true ->
  go_ret a <> -1 -> is_setting a = false ->
  result (main argc cwd (pre ++ a :: post) w ws h) = Some EXIT_FAILURE
  /\ handles_of (main argc cwd (pre ++ a :: post) w ws h) = h
  /\ system_calls (actions (main argc cwd (pre ++ a :: post) w ws h))
     = (if (option_ident a =? OID_HELP) || (option_ident a =? OID_PATH)
        then [Sys_getcwd sizeof_path] else [])
  /\ actions (main argc cwd (pre ++ a :: post) w ws h) <> [].
Proof.
  intros Hargc Hpre Hret Ha.
  destruct (parse_options_settings cwd pre Hpre initial_options h)
    as (o' & Hrest & _).
  destruct (process_option_stops cwd a o' h Ha Hret) as (t & Hstep & Ht & Hne).
  destruct (getopt_long_answer a h) as (td & Hg & Htd).
  assert (Hmain : main argc cwd (pre ++ a :: post) w ws h
                  = (Some EXIT_FAILURE, h, td ++ t)).
  { unfold main.
    replace (argc =? 1) with false
      by (symmetry; apply Z.eqb_neq; exact Hargc).
    unfold bind at 1. rewrite Hrest. cbn [parse_options].
    unfold bind at 1. rewrite Hg.
    replace (go_ret a =? -1) with false
      by (symmetry; apply Z.eqb_neq; exact Hret).
    unfold bind, pure. rewrite Hstep. rewrite !app_nil_r. reflexivity. }
  rewrite Hmain, result_triple, handles_of_triple, actions_triple.
  rewrite system_calls_app, Htd, Ht.
  repeat split. intros E. apply app_eq_nil in E as [_ E]. exact (Hne E).
Qed.

Lemma main_info_option_stops_witness :
  result (main 6 "/home/u" ([opt_file "a.txt"; opt_exec "make"]
                            ++ opt_unknown :: [opt_verbose])
            (Startup 0 3 4 1 EmptyString) [timeout_pass 0] initial_handles)
  = Some EXIT_FAILURE
  /\ system_calls
       (actions (main 6 "/home/u" ([opt_file "a.txt"; opt_exec "make"]
                                   ++ opt_unknown :: [opt_verbose])
                   (Startup 0 3 4 1 EmptyString) [timeout_pass 0]
                   initial_handles))
     = [Sys_getcwd sizeof_path].
Proof.
  pose proof (main_info_option_stops 6 "/home/u"
                [opt_file "a.txt"; opt_exec "make"] opt_unknown [opt_verbose]
                (Startup 0 3 4 1 EmptyString) [timeout_pass 0]
                initial_handles
                ltac:(vm_compute; congruence) eq_refl
                ltac:(vm_compute; congruence) eq_refl) as H.
  split; [exact (proj1 H) | exact (proj1 (proj2 (proj2 H)))].
Defined.



(** The stdin option discards the target: when a stdin option is not
    followed by a file option, [main] asks for a filename pattern and
    returns [EXIT_FAILURE] without watching, whatever file options came
    before it. *)
Theorem stdin_option_discards_target argc cwd pre a post w ws h :
  argc <> 1 ->
  forallb is_setting (pre ++ a :: post) = true ->
  option_ident a = OID_STDIN ->
  forallb (fun a => negb (is_file a)) post = true ->
  main argc cwd (pre ++ a :: post) w ws h
  = (Some EXIT_FAILURE, h,
     [Stdout (text ["Please supply a filename pattern to watch for changes.";
                    nl]%string)]).
Proof.
  intros Hargc Hall Hid Hpost.
  rewrite forallb_app in Hall. apply andb_prop in Hall as [Hpre Hrest].
  cbn [forallb] in Hrest. apply andb_prop in Hrest as [Ha Hpst].
  destruct (parse_options_settings cwd pre Hpre initial_options h)
    as (o1 & H1 & _).
  destruct (process_option_setting cwd a o1 h Ha) as (o2 & H2 & _ & Hs & _).
  destruct (parse_options_settings cwd post Hpst o2 h) as (o3 & H3 & Ht3 & _).
  specialize (H3 []). rewrite app_nil_r in H3.
  destruct (is_setting_ret a Ha) as [Hret Hq].
  assert (Hparse : parse_options cwd (pre ++ a :: post) initial_options h
                   = ((true, o3), h, [])).
  { rewrite H1, parse_options_step by assumption.
    unfold bind. rewrite H2, H3. reflexivity. }
  unfold main.
  replace (argc =? 1) with false by (symmetry; apply Z.eqb_neq; exact Hargc).
  unfold bind at 1. rewrite Hparse.
  rewrite (Ht3 Hpost (Hs Hid)). reflexivity.
Qed.

Lemma stdin_option_discards_target_witness :
  main 5 "/home/u" ([opt_file "a.txt"] ++ opt_stdin :: [opt_exec "make"])
    (Startup 0 3 4 1 EmptyString) [timeout_pass 0] initial_handles
  = (Some EXIT_FAILURE, initial_handles,
     [Stdout (text ["Please supply a filename pattern to watch for changes.";
                    nl]%string)]).
Proof.
  apply (stdin_option_discards_target 5 "/home/u" [opt_file "a.txt"]
           opt_stdin [opt_exec "make"] (Startup 0 3 4 1 EmptyString)
           [timeout_pass 0] initial_handles);
    [vm_compute; congruence | reflexivity | reflexivity | reflexivity].
Defined.

(** Running without arguments is asking for help: for a leading [-h] or
    [--help], [main] does exactly what it does when [argc] is 1: it prints
    the same text, makes the same single system call, the [getcwd] of
    [report_path], and returns the same [EXIT_FAILURE].  For a leading
    option that [getopt_long] does not know the same follows the message of
    [getopt_long]. *)
Theorem no_arguments_is_help argc cwd a rest answers w ws h :
  argc <> 1 ->
  go_ret a = char_code "h" \/ go_ret a = char_code "?" ->
  main argc cwd (a :: rest) w ws h
  = (Some EXIT_FAILURE, h,
     (if go_ret a =? char_code "?" then
        match go_diagnostic a with
        | Some message => [Stderr message]
        | None => []
        end
      else [])
     ++ actions (main 1 cwd answers w ws h))
  /\ (go_ret a = char_code "h" \/ go_diagnostic a = None ->
      main argc cwd (a :: rest) w ws h = main 1 cwd answers w ws h)
  /\ result (main 1 cwd answers w ws h) = Some EXIT_FAILURE
  /\ system_calls (actions (main 1 cwd answers w ws h))
     = [Sys_getcwd sizeof_path].
Proof.
  intros Hargc Hc.
  assert (Hmain : main argc cwd (a :: rest) w ws h
                  = (Some EXIT_FAILURE, h,
                     (if go_ret a =? char_code "?" then
                        match go_diagnostic a with
                        | Some message => [Stderr message]
                        | None => []
                        end
                      else [])
                     ++ actions (main 1 cwd answers w ws h))).
  { unfold main.
    replace (argc =? 1) with false
      by (symmetry; apply Z.eqb_neq; exact Hargc).
    cbn [Z.eqb Pos.eqb parse_options]. unfold getopt_long, process_option.
    assert (Hid : option_ident a = OID_HELP)
      by (unfold option_ident; destruct Hc as [-> | ->]; reflexivity).
    rewrite Hid. cbn [Z.eqb OID_HELP].
    destruct Hc as [-> | ->]; cbn [Z.eqb Pos.eqb char_code N_of_ascii Z.of_N];
      [reflexivity|].
    destruct (go_diagnostic a); reflexivity. }
  split; [exact Hmain|]. split; [|split; reflexivity].
  intros Hq. rewrite Hmain.
  destruct Hq as [-> | ->]; [reflexivity|].
  destruct (go_ret a =? char_code "?"); reflexivity.
Qed.

Lemma no_arguments_is_help_witness :
  main 2 "/home/u" (opt_long_help :: [opt_file "a.txt"])
    (Startup 0 3 4 1 EmptyString) [timeout_pass 0] initial_handles
  = main 1 "/home/u" [] (Startup 0 3 4 1 EmptyString) [timeout_pass 0]
      initial_handles.
Proof.
  apply (proj1 (proj2 (no_arguments_is_help 2 "/home/u" opt_long_help
                         [opt_file "a.txt"] []
                         (Startup 0 3 4 1 EmptyString) [timeout_pass 0]
                         initial_handles
                         ltac:(vm_compute; congruence)
                         (or_intror eq_refl)))).
  right. reflexivity.
Defined.

(** ** The once option *)






(** ** When [main] watches *)

Lemma process_option_file cwd a o h :
  go_ret a <> -1 -> option_ident a = OID_FILE ->
  process_option cwd a o h
  = ((true, Options (go_optarg a) (s_exec_command o) false (s_continuous o)
              (s_verbose o)), h, []).
Proof.
  intros _ Hid. unfold process_option. rewrite Hid. reflexivity.
Qed.

Lemma process_option_exec cwd a o h :
  go_ret a <> -1 -> option_ident a = OID_EXEC ->
  process_option cwd a o h
  = ((true, Options (s_watch_target o) (go_optarg a) (s_watch_stdin o)
              (s_continuous o) (s_verbose o)), h, []).
Proof.
  intros _ Hid. unfold process_option. rewrite Hid. reflexivity.
Qed.

(** A file option and an exec option at the end of the command line start
    the watch, whatever setting options came before them: the exit status
    of [main], the handles and the system calls are those of
    [watch_for_changes] on that target with that command. *)
Theorem main_watches argc cwd pre af ae target command w ws h :
  argc <> 1 ->
  forallb is_setting pre = true ->
  go_ret af <> -1 -> option_ident af = OID_FILE ->
  go_optarg af = Some target ->
  go_ret ae <> -1 -> option_ident ae = OID_EXEC ->
  go_optarg ae = Some command ->
  result (main argc cwd (pre ++ [af; ae]) w ws h)
  = result (watch_for_changes w ws target command true false h)
  /\ handles_of (main argc cwd (pre ++ [af; ae]) w ws h)
     = handles_of (watch_for_changes w ws target command true false h)
  /\ system_calls (actions (main argc cwd (pre ++ [af; ae]) w ws h))
     = system_calls
         (actions (watch_for_changes w ws target command true false h)).
Proof.
  intros Hargc Hpre Hrf Hif Hof Hre Hie Hoe.
  destruct (parse_options_settings cwd pre Hpre initial_options h)
    as (o1 & H1 & _).
  assert (Hparse : parse_options cwd (pre ++ [af; ae]) initial_options h
                   = ((true, Options (Some target) (Some command) false
                               (s_continuous o1) (s_verbose o1)), h, [])).
  { assert (Hqf : go_ret af <> char_code "?")
      by (apply option_ident_not_help; rewrite Hif; discriminate).
    assert (Hqe : go_ret ae <> char_code "?")
      by (apply option_ident_not_help; rewrite Hie; discriminate).
    rewrite H1, parse_options_step by assumption.
    unfold bind at 1. rewrite (process_option_file cwd af o1 h Hrf Hif).
    rewrite parse_options_step by assumption.
    unfold bind at 1. rewrite (process_option_exec cwd ae _ h Hre Hie).
    cbn [parse_options]. unfold pure.
    cbn [s_watch_target s_exec_command s_watch_stdin s_continuous s_verbose
         app].
    rewrite Hof, Hoe. reflexivity. }
  assert (Hag : agree_up_to_output
                  (when (s_verbose o1)
                     (emit (Stdout (text [if s_continuous o1 then "Continuous"
                                          else "Single";
                                          " watch for change on "; target;
                                          nl]%string));;
                      emit (Stdout (text ["Execute '"; command;
                                          "' on event."; nl]%string)));;
                   watch_for_changes w ws target command (s_continuous o1)
                     (s_verbose o1))
                  (watch_for_changes w ws target command true false)).
  { intros h0.
    change (watch_for_changes w ws target command (s_continuous o1)
              (s_verbose o1))
      with (watch_for_changes w ws target command true (s_verbose o1)).
    destruct (watch_for_changes_verbose w ws target command true h0)
      as (V1 & V2 & V3).
    unfold when, bind, emit, pure. destruct (s_verbose o1).
    - rewrite <- V1, <- V2, <- V3.
      destruct (watch_for_changes w ws target command true true h0)
        as [[r h'] t]. repeat split.
    - destruct (watch_for_changes w ws target command true false h0)
        as [[r h'] t]. repeat split. }
  unfold main.
  replace (argc =? 1) with false by (symmetry; apply Z.eqb_neq; exact Hargc).
  rewrite result_bind, handles_of_bind, actions_bind, Hparse.
  rewrite result_triple, handles_of_triple, actions_triple.
  cbn [s_watch_target s_exec_command s_continuous s_verbose app].
  exact (Hag h).
Qed.

Lemma main_watches_witness :
  result (main 6 "/home/u"
            ([opt_verbose; opt_once] ++ [opt_file "a.txt"; opt_exec "make"])
            (Startup 0 3 4 1 EmptyString)
            [change_pass [modify_a]; timeout_pass (wait_status (Exited 1))]
            initial_handles)
  = result (watch_for_changes (Startup 0 3 4 1 EmptyString)
              [change_pass [modify_a]; timeout_pass (wait_status (Exited 1))]
              "a.txt" "make" true false initial_handles).
Proof.
  apply (proj1 (main_watches 6 "/home/u" [opt_verbose; opt_once]
                  (opt_file "a.txt") (opt_exec "make") "a.txt" "make"
                  (Startup 0 3 4 1 EmptyString)
                  [change_pass [modify_a];
                   timeout_pass (wait_status (Exited 1))]
                  initial_handles
                  ltac:(vm_compute; congruence) eq_refl
                  ltac:(vm_compute; congruence) eq_refl eq_refl
                  ltac:(vm_compute; congruence) eq_refl eq_refl)).
Defined.
